(** * Logout coordination of the Keybase client (go/libkb/logout.go)

    A shallow embedding of the logout path of [libkb]: the eligibility
    policy [CanLogout], the coordinator [LogoutUsernameWithOptions] with its
    wrappers, the secret-store helper [logoutSecretStore] and the server
    driven [LogoutSelfCheck]; module [legacy] embeds the earlier revision of
    the same file, whose entry points take a [killSecrets] flag.

    The Go code mutates a process-wide [GlobalContext] and calls into many
    collaborators.  Here a function of the source is a computation over the
    part of the global context the file touches, which also yields the
    ordered list of collaborator calls and log lines it performed. *)

From stdpp Require Import gmap strings list.

Open Scope string_scope.
Open Scope list_scope.

(** ** Protocol types (package keybase1) *)

Module keybase1.

(** The three fields [logout.go] reads and writes. *)
Record CanLogoutRes : Type := mkCanLogoutRes {
  CanLogout : bool;
  Reason : string;
  SetPassphrase : bool
}.

(** Go's zero value, the initial content of a named result [res]. *)
Definition CanLogoutRes_zero : CanLogoutRes :=
  {| CanLogout := false; Reason := ""; SetPassphrase := false |}.

Record LoadHasRandomPwArg : Type := mkLoadHasRandomPwArg {
  ForceRepoll : bool
}.

End keybase1.

Module libkb.

(** ** Data *)

(** A Go [error] value: its dynamic type, as far as the type switch of
    [CanLogout] tells types apart, and the text [err.Error()] gives. *)
Inductive ErrorType : Type :=
| DeviceNotFoundError
| UserNotFoundError
| KeyRevokedError
| NoDeviceError
| NoUIDError
| OtherError.

Record error : Type := mkError {
  errType : ErrorType;
  Error : string
}.

(** [fmt.Errorf] with an already formatted text. *)
Definition Errorf (msg : string) : error :=
  {| errType := OtherError; Error := msg |}.

(** Modelled from the spec: the declaration of [NormalizedUsername] is
    not part of the sources at hand; the spec speaks of an "empty/nil
    username", so a username is a string and [IsNil] tests emptiness. *)
Definition NormalizedUsername : Type := string.

Definition IsNil (s : string) : bool :=
  match s with
  | EmptyString => true
  | String _ _ => false
  end.

(** Modelled from the spec: user and device identifiers, also declared
    elsewhere; a nil identifier is the empty one. *)
Definition UID : Type := string.
Definition DeviceID : Type := string.

(** The storage mode is an integer type in Go (it is logged with [%d]);
    the source names two of its values and compares against each of them
    separately, every further value is [KeychainModeOther]. *)
Inductive KeychainMode : Type :=
| KeychainModeNone
| KeychainModeOS
| KeychainModeOther.

(** Go's [==] on storage modes. *)
Definition KeychainMode_eqb (a b : KeychainMode) : bool :=
  match a, b with
  | KeychainModeNone, KeychainModeNone
  | KeychainModeOS, KeychainModeOS
  | KeychainModeOther, KeychainModeOther => true
  | _, _ => false
  end.

Record LogoutOptions : Type := mkLogoutOptions {
  KeepSecrets : bool;
  Force : bool
}.

(** The session identity held by [g.ActiveDevice]. *)
Module ActiveDevice.
Record t : Type := mk {
  Valid : bool;
  KeychainMode : libkb.KeychainMode;
  UID : libkb.UID;
  DeviceID : libkb.DeviceID;
  Username : NormalizedUsername
}.

(** Modelled from the spec: [clear] is not in the sources at hand;
    "read and clear the active credential-storage mode", after which
    the session identity is "effectively destroyed (credential state
    reset)". *)
Definition clear (_ : t) : t :=
  {| Valid := false; KeychainMode := KeychainModeNone;
     UID := ""; DeviceID := ""; Username := "" |}.
End ActiveDevice.

(** The stored secrets, per username. *)
Definition Secret : Type := string.

(** The fields of [GlobalContext] that [logout.go] reads or writes
    itself.  [secretStore] is [None] for Go's nil interface value;
    [switchedUsers] is the Go map [map[NormalizedUsername]bool]. *)
Module GlobalContext.
Record t : Type := mk {
  ActiveDevice : ActiveDevice.t;
  secretStore : option (gmap string Secret);
  switchedUsers : gmap string bool
}.
End GlobalContext.

(** The response of the API server, as far as [LogoutSelfCheck] looks
    into it: a JSON object whose members are booleans or something
    else. *)
Inductive jsonValue : Type :=
| JBool (b : bool)
| JOther (raw : string).

Record APIRes : Type := mkAPIRes {
  Body : gmap string jsonValue
}.

(** What the collaborators answer during one call: every fallible
    collaborator of the file is called at most once per logout, so one
    answer each describes a run. *)
Record Collaborators : Type := mkCollaborators {
  (** [CheckCurrentUIDDeviceID(mctx)] *)
  checkCurrentUIDDeviceID : option error;
  (** [LoadHasRandomPw(mctx, arg)], by the value of [ForceRepoll] *)
  loadHasRandomPw : keybase1.LoadHasRandomPwArg -> error + bool;
  (** the error part of [g.ActiveDevice.ClearGetKeychainMode()] *)
  clearActiveDevice : option error;
  (** [g.secretStore.ClearSecret(m, username)] *)
  clearSecret : NormalizedUsername -> option error;
  (** [g.ConfigReload()] *)
  configReload : option error;
  (** [g.GetUPAKLoader().OnLogout()] *)
  upakLoaderOnLogout : option error;
  (** [g.API.Post(mctx, arg)] *)
  apiPost : error + APIRes;
  (** the error [GetBool] gives on a member that is not a boolean *)
  getBoolError : error
}.

(** ** Observable steps *)

Inductive Mutex : Type :=
| switchUserMu
| secretStoreMu.

(** An argument of a log line. *)
Inductive Arg : Type :=
| AString (s : string)
| ABool (b : bool)
| AError (e : error)
| AMode (k : KeychainMode)
| AOptions (o : LogoutOptions)
| ACanLogoutRes (r : keybase1.CanLogoutRes).

Inductive Event : Type :=
(** [mctx.Debug(format, args...)] *)
| EvDebug (format : string) (args : list Arg)
(** [mctx.Trace(msg, f)] and the call of the function it returns *)
| EvTraceEnter (format : string) (args : list Arg)
| EvTraceExit (err : option error)
| EvAcquire (mu : Mutex)
| EvRelease (mu : Mutex)
| EvCheckCurrentUIDDeviceID
| EvLoadHasRandomPw (arg : keybase1.LoadHasRandomPwArg)
| EvClearGetKeychainMode
| EvLocalSigchainGuardClear (reason : string)
| EvCallLogoutHooks
| EvClearPerUserKeyring
| EvFlushCaches
| EvClearSecret (username : NormalizedUsername)
| EvConfigReload
| EvNotifyRouterHandleLogout
| EvFeatureFlagsClear
| EvIdentifyDispatchOnLogout
| EvIdentify3StateOnLogout
| EvUPAKLoaderOnLogout
| EvPegboardOnLogout
| EvAPIPost (endpoint : string) (uid : UID) (deviceID : DeviceID).

(** ** Computations

    A block of Go statements either falls through with a value [A] or
    executes [return r]; it may change the global context and it appends
    to the list of steps. *)
Definition M (R A : Type) : Type :=
  GlobalContext.t -> (R + A) * GlobalContext.t * list Event.

Definition ret {R A} (a : A) : M R A :=
  fun g => (inr a, g, []).

Definition bind {R A B} (m : M R A) (k : A -> M R B) : M R B :=
  fun g =>
    match m g with
    | (inl r, g', t) => (inl r, g', t)
    | (inr a, g', t) =>
        match k a g' with
        | (x, g'', t') => (x, g'', t ++ t')
        end
    end.

(** Go's [return r]. *)
Definition return_ {R A} (r : R) : M R A :=
  fun g => (inl r, g, []).

Definition emit {R} (e : Event) : M R unit :=
  fun g => (inr tt, g, [e]).

Definition Debug {R} (format : string) (args : list Arg) : M R unit :=
  emit (EvDebug format args).

Definition getG {R} : M R GlobalContext.t :=
  fun g => (inr g, g, []).

Definition putG {R} (g' : GlobalContext.t) : M R unit :=
  fun _ => (inr tt, g', []).

(** An [if] without [else]. *)
Definition when {R} (c : bool) (m : M R unit) : M R unit :=
  if c then m else ret tt.

(** [defer f()]: [f] runs when the function returns, whatever the exit,
    and may read the named result. *)
Definition deferring {R A} (f : R -> M R unit) (body : M R A) : M R A :=
  fun g =>
    match body g with
    | (inl r, g', t) =>
        match f r g' with
        | (_, g'', t') => (inl r, g'', t ++ t')
        end
    | (inr a, g', t) => (inr a, g', t)
    end.

(** A function body seen from its caller: the returned value. *)
Definition func {R R'} (body : M R R) : M R' R :=
  fun g =>
    match body g with
    | (inl r, g', t) => (inr r, g', t)
    | (inr r, g', t) => (inr r, g', t)
    end.

(** Running a function of the file on a global context. *)
Definition run {R} (m : M R R) (g : GlobalContext.t)
  : R * GlobalContext.t * list Event :=
  match m g with
  | (inl r, g', t) => (r, g', t)
  | (inr r, g', t) => (r, g', t)
  end.

Definition result {R} (m : M R R) (g : GlobalContext.t) : R :=
  (run m g).1.1.
Definition final {R} (m : M R R) (g : GlobalContext.t) : GlobalContext.t :=
  (run m g).1.2.
Definition steps {R} (m : M R R) (g : GlobalContext.t) : list Event :=
  (run m g).2.

Declare Scope go_scope.
Delimit Scope go_scope with go.
Notation "x <- c1 ;; c2" := (bind c1 (fun x => c2))
  (at level 100, c1 at next level, right associativity) : go_scope.
Notation "c1 ;; c2" := (bind c1 (fun _ => c2))
  (at level 100, right associativity) : go_scope.
Open Scope go_scope.

(** ** Collaborator calls *)

Definition CheckCurrentUIDDeviceID {R} (mctx : Collaborators)
  : M R (option error) :=
  emit EvCheckCurrentUIDDeviceID ;;
  ret (checkCurrentUIDDeviceID mctx).

Definition LoadHasRandomPw {R} (mctx : Collaborators)
    (arg : keybase1.LoadHasRandomPwArg) : M R (error + bool) :=
  emit (EvLoadHasRandomPw arg) ;;
  ret (loadHasRandomPw mctx arg).

(** The type switch of [CanLogout]: the five listed error types. *)
Definition isStaleStateError (err : error) : bool :=
  match errType err with
  | DeviceNotFoundError | UserNotFoundError
  | KeyRevokedError | NoDeviceError | NoUIDError => true
  | OtherError => false
  end.

(** ** [CanLogout] *)

Definition CanLogout {R} (mctx : Collaborators) : M R keybase1.CanLogoutRes :=
  func (
    let res := keybase1.CanLogoutRes_zero in
    g <- getG ;;
    when (negb (ActiveDevice.Valid (GlobalContext.ActiveDevice g))) (
      Debug "CanLogout: looks like user is not logged in" [] ;;
      return_ (keybase1.mkCanLogoutRes true (keybase1.Reason res) (keybase1.SetPassphrase res))
    ) ;;
    when (KeychainMode_eqb (ActiveDevice.KeychainMode (GlobalContext.ActiveDevice g)) KeychainModeNone) (
      Debug "CanLogout: ok to logout since the key used doesn't user the keychain" [] ;;
      return_ (keybase1.mkCanLogoutRes true (keybase1.Reason res) (keybase1.SetPassphrase res))
    ) ;;
    err <- CheckCurrentUIDDeviceID mctx ;;
    match err with
    | Some err =>
        if isStaleStateError err then
          Debug "CanLogout: allowing logout because of CheckCurrentUIDDeviceID returning: %s"
                [AString (Error err)] ;;
          return_ {| keybase1.CanLogout := true; keybase1.Reason := "";
                     keybase1.SetPassphrase := false |}
        else
          Debug "CanLogout: CheckCurrentUIDDeviceID returned: %q, falling through"
                [AString (Error err)]
    | None => ret tt
    end ;;
    r <- LoadHasRandomPw mctx {| keybase1.ForceRepoll := false |} ;;
    match r with
    | inl err =>
        return_ {| keybase1.CanLogout := false;
                   keybase1.Reason :=
                     "We couldn't ensure that your account has a passphrase: " +:+ Error err;
                   keybase1.SetPassphrase := false |}
    | inr hasRandomPW =>
        when hasRandomPW (
          return_ {| keybase1.CanLogout := false;
                     keybase1.SetPassphrase := true;
                     keybase1.Reason :=
                       "You signed up without a password and need to set a password first" |}
        ) ;;
        return_ (keybase1.mkCanLogoutRes true (keybase1.Reason res) (keybase1.SetPassphrase res))
    end
  ).

(** ** Session state and the other collaborators *)

(** Modelled from the spec: [ClearGetKeychainMode] is not in the sources
    at hand; it "reads and clears the active credential-storage mode from
    the session-state object".  Its error result is the collaborator's;
    a failed clear is taken to leave the session identity as it was. *)
Definition ClearGetKeychainMode {R} (mctx : Collaborators)
  : M R (KeychainMode * option error) :=
  emit EvClearGetKeychainMode ;;
  g <- getG ;;
  let mode := ActiveDevice.KeychainMode (GlobalContext.ActiveDevice g) in
  match clearActiveDevice mctx with
  | Some err => ret (mode, Some err)
  | None =>
      putG {| GlobalContext.ActiveDevice :=
                ActiveDevice.clear (GlobalContext.ActiveDevice g);
              GlobalContext.secretStore := GlobalContext.secretStore g;
              GlobalContext.switchedUsers := GlobalContext.switchedUsers g |} ;;
      ret (mode, None)
  end.

(** Modelled from the spec: the OS-backed secret store offers
    "erase-secret-by-username (fallible)"; a successful erase removes the
    entry, a failed one leaves the store as it was.  On a nil store the
    call has nothing to act on. *)
Definition ClearSecret {R} (m : Collaborators) (username : NormalizedUsername)
  : M R (option error) :=
  emit (EvClearSecret username) ;;
  match clearSecret m username with
  | Some err => ret (Some err)
  | None =>
      g <- getG ;;
      putG {| GlobalContext.ActiveDevice := GlobalContext.ActiveDevice g;
              GlobalContext.secretStore :=
                delete username <$> GlobalContext.secretStore g;
              GlobalContext.switchedUsers := GlobalContext.switchedUsers g |} ;;
      ret None
  end.

(** [g.switchedUsers[username] = true] *)
Definition setSwitchedUser {R} (username : NormalizedUsername) : M R unit :=
  g <- getG ;;
  putG {| GlobalContext.ActiveDevice := GlobalContext.ActiveDevice g;
          GlobalContext.secretStore := GlobalContext.secretStore g;
          GlobalContext.switchedUsers :=
            <[username := true]> (GlobalContext.switchedUsers g) |}.

(** [delete(g.switchedUsers, username)] *)
Definition deleteSwitchedUser {R} (username : NormalizedUsername) : M R unit :=
  g <- getG ;;
  putG {| GlobalContext.ActiveDevice := GlobalContext.ActiveDevice g;
          GlobalContext.secretStore := GlobalContext.secretStore g;
          GlobalContext.switchedUsers :=
            delete username (GlobalContext.switchedUsers g) |}.

(** [g.secretStore == nil] *)
Definition secretStoreIsNil (g : GlobalContext.t) : bool :=
  match GlobalContext.secretStore g with
  | None => true
  | Some _ => false
  end.

(** The fallible hooks: the step is recorded, the answer is the
    collaborator's. *)
Definition ConfigReload {R} (mctx : Collaborators) : M R (option error) :=
  emit EvConfigReload ;;
  ret (configReload mctx).

Definition UPAKLoaderOnLogout {R} (mctx : Collaborators) : M R (option error) :=
  emit EvUPAKLoaderOnLogout ;;
  ret (upakLoaderOnLogout mctx).

(** [g.API.Post(mctx, arg)] with the endpoint and the two HTTP arguments
    of [arg]; the session type is always [APISessionTypeREQUIRED]. *)
Definition APIPost {R} (mctx : Collaborators)
    (endpoint : string) (uid : UID) (deviceID : DeviceID)
  : M R (error + APIRes) :=
  emit (EvAPIPost endpoint uid deviceID) ;;
  ret (apiPost mctx).

(** Modelled from the spec: [res.Body.AtKey(k).GetBool()], of the JSON
    wrapper package, "parses a boolean verdict": it fails when the
    member is missing or is not a boolean. *)
Definition AtKey (k : string) (body : gmap string jsonValue) : option jsonValue :=
  body !! k.

Definition GetBool (mctx : Collaborators) (v : option jsonValue) : error + bool :=
  match v with
  | Some (JBool b) => inr b
  | Some (JOther _) | None => inl (getBoolError mctx)
  end.

(** ** [logoutSecretStore] *)

Definition logoutSecretStore {R} (m : Collaborators)
    (username : NormalizedUsername) (noKillSecrets : bool) : M R unit :=
  func (
    emit (EvAcquire secretStoreMu) ;;
    deferring (fun _ => emit (EvRelease secretStoreMu)) (
      g <- getG ;;
      when (secretStoreIsNil g || IsNil username) (
        return_ tt
      ) ;;
      when noKillSecrets (
        setSwitchedUser username ;;
        return_ tt
      ) ;;
      err <- ClearSecret m username ;;
      match err with
      | Some err =>
          Debug "clear stored secret error: %s" [AError err] ;;
          return_ tt
      | None => ret tt
      end ;;
      deleteSwitchedUser username ;;
      return_ tt
    )
  ).

(** ** [LogoutUsernameWithOptions] and its wrappers

    [mctx.WithLogTag] only tags the log lines and is left out. *)

Definition LogoutUsernameWithOptions {R} (mctx : Collaborators)
    (username : NormalizedUsername) (options : LogoutOptions)
  : M R (option error) :=
  func (
    emit (EvTraceEnter "MetaContext#LogoutWithOptions(%#v)" [AOptions options]) ;;
    deferring (fun err => emit (EvTraceExit err)) (
    emit (EvAcquire switchUserMu) ;;
    deferring (fun _ => emit (EvRelease switchUserMu)) (
      Debug "MetaContext#logoutWithSecretKill: after switchUserMu acquisition (username: %s, options: %#v)"
            [AString username; AOptions options] ;;
      (if KeepSecrets options then
         Debug "Keeping secrets after this login, so not checking HasRandomPW" []
       else
         Debug "MetaContext#logoutWithSecretKill: checking if CanLogout" [] ;;
         canLogoutRes <- CanLogout mctx ;;
         Debug "MetaContext#logoutWithSecretKill: CanLogout res: %#v"
               [ACanLogoutRes canLogoutRes] ;;
         when (negb (keybase1.CanLogout canLogoutRes)) (
           return_ (Some (Errorf ("Cannot log out: " +:+ keybase1.Reason canLogoutRes)))
         )) ;;
      r <- ClearGetKeychainMode mctx ;;
      let keychainMode := r.1 in
      match r.2 with
      | Some err => return_ (Some err)
      | None => ret tt
      end ;;
      emit (EvLocalSigchainGuardClear "Logout") ;;
      Debug "+ MetaContext#logoutWithSecretKill: calling logout hooks" [] ;;
      emit EvCallLogoutHooks ;;
      Debug "- MetaContext#logoutWithSecretKill: called logout hooks" [] ;;
      emit EvClearPerUserKeyring ;;
      emit EvFlushCaches ;;
      (if KeychainMode_eqb keychainMode KeychainModeOS then
         logoutSecretStore mctx username (KeepSecrets options)
       else
         Debug "Not clearing secret store in mode %d" [AMode keychainMode]) ;;
      err <- ConfigReload mctx ;;
      match err with
      | Some err => Debug "Logout ConfigReload error: %s" [AError err]
      | None => ret tt
      end ;;
      emit EvNotifyRouterHandleLogout ;;
      emit EvFeatureFlagsClear ;;
      emit EvIdentifyDispatchOnLogout ;;
      emit EvIdentify3StateOnLogout ;;
      err <- UPAKLoaderOnLogout mctx ;;
      match err with
      | Some err => return_ (Some err)
      | None => ret tt
      end ;;
      emit EvPegboardOnLogout ;;
      return_ None
    ))
  ).

Definition LogoutWithOptions {R} (mctx : Collaborators) (options : LogoutOptions)
  : M R (option error) :=
  func (
    g <- getG ;;
    let username := ActiveDevice.Username (GlobalContext.ActiveDevice g) in
    err <- LogoutUsernameWithOptions mctx username options ;;
    return_ err
  ).

Definition LogoutKillSecrets {R} (mctx : Collaborators) : M R (option error) :=
  func (
    err <- LogoutWithOptions mctx {| KeepSecrets := false; Force := false |} ;;
    return_ err
  ).

Definition LogoutKeepSecrets {R} (mctx : Collaborators) : M R (option error) :=
  func (
    err <- LogoutWithOptions mctx {| KeepSecrets := true; Force := false |} ;;
    return_ err
  ).

(** ** [LogoutSelfCheck] *)

Definition LogoutSelfCheck {R} (mctx : Collaborators) : M R (option error) :=
  func (
    g <- getG ;;
    let uid := ActiveDevice.UID (GlobalContext.ActiveDevice g) in
    when (IsNil uid) (
      Debug "LogoutSelfCheck: no uid" [] ;;
      return_ None
    ) ;;
    let deviceID := ActiveDevice.DeviceID (GlobalContext.ActiveDevice g) in
    when (IsNil deviceID) (
      Debug "LogoutSelfCheck: no device id" [] ;;
      return_ None
    ) ;;
    res <- APIPost mctx "selfcheck" uid deviceID ;;
    match res with
    | inl err => return_ (Some err)
    | inr res =>
        match GetBool mctx (AtKey "logout" (Body res)) with
        | inl err => return_ (Some err)
        | inr logout =>
            Debug "LogoutSelfCheck: should log out? %v" [ABool logout] ;;
            when logout (
              Debug "LogoutSelfCheck: logging out..." [] ;;
              err <- LogoutKillSecrets mctx ;;
              return_ err
            ) ;;
            return_ None
        end
    end
  ).

End libkb.

(** ** The earlier revision of the file

    Its [CanLogout] has the same text as the current one and is not
    repeated; its logout entry points never call it. *)

Module legacy.
Import libkb.

Definition logoutSecretStore {R} (m : Collaborators)
    (username : NormalizedUsername) (killSecrets : bool) : M R unit :=
  func (
    emit (EvAcquire secretStoreMu) ;;
    deferring (fun _ => emit (EvRelease secretStoreMu)) (
      g <- getG ;;
      when (secretStoreIsNil g || IsNil username) (
        return_ tt
      ) ;;
      when (negb killSecrets) (
        setSwitchedUser username ;;
        return_ tt
      ) ;;
      err <- ClearSecret m username ;;
      match err with
      | Some err =>
          Debug "clear stored secret error: %s" [AError err] ;;
          return_ tt
      | None => ret tt
      end ;;
      deleteSwitchedUser username ;;
      return_ tt
    )
  ).

Definition LogoutUsernameWithSecretKill {R} (m : Collaborators)
    (username : NormalizedUsername) (killSecrets : bool)
  : M R (option error) :=
  func (
    emit (EvAcquire switchUserMu) ;;
    deferring (fun _ => emit (EvRelease switchUserMu)) (
      Debug "GlobalContext#logoutWithSecretKill: after switchUserMu acquisition (username: %s, secretKill: %v)"
            [AString username; ABool killSecrets] ;;
      r <- ClearGetKeychainMode m ;;
      let keychainMode := r.1 in
      match r.2 with
      | Some err => return_ (Some err)
      | None => ret tt
      end ;;
      emit (EvLocalSigchainGuardClear "Logout") ;;
      Debug "+ GlobalContext#logoutWithSecretKill: calling logout hooks" [] ;;
      emit EvCallLogoutHooks ;;
      Debug "- GlobalContext#logoutWithSecretKill: called logout hooks" [] ;;
      emit EvClearPerUserKeyring ;;
      emit EvFlushCaches ;;
      (if KeychainMode_eqb keychainMode KeychainModeOS then
         logoutSecretStore m username killSecrets
       else
         Debug "Not clearing secret store in mode %d" [AMode keychainMode]) ;;
      err <- ConfigReload m ;;
      match err with
      | Some err => Debug "Logout ConfigReload error: %s" [AError err]
      | None => ret tt
      end ;;
      emit EvNotifyRouterHandleLogout ;;
      emit EvFeatureFlagsClear ;;
      emit EvIdentifyDispatchOnLogout ;;
      emit EvIdentify3StateOnLogout ;;
      err <- UPAKLoaderOnLogout m ;;
      match err with
      | Some err => return_ (Some err)
      | None => ret tt
      end ;;
      emit EvPegboardOnLogout ;;
      return_ None
    )
  ).

Definition LogoutCurrentUserWithSecretKill {R} (m : Collaborators)
    (killSecrets : bool) : M R (option error) :=
  func (
    g <- getG ;;
    err <- LogoutUsernameWithSecretKill m
             (ActiveDevice.Username (GlobalContext.ActiveDevice g)) killSecrets ;;
    return_ err
  ).

Definition Logout {R} (m : Collaborators) : M R (option error) :=
  func (
    emit (EvTraceEnter "GlobalContext#Logout" []) ;;
    deferring (fun err => emit (EvTraceExit err)) (
      err <- LogoutCurrentUserWithSecretKill m true ;;
      return_ err
    )
  ).

Definition ClearStateForSwitchUsers {R} (m : Collaborators) : M R (option error) :=
  func (
    err <- LogoutCurrentUserWithSecretKill m false ;;
    return_ err
  ).

Definition LogoutSelfCheck {R} (m : Collaborators) : M R (option error) :=
  func (
    g <- getG ;;
    let uid := ActiveDevice.UID (GlobalContext.ActiveDevice g) in
    when (IsNil uid) (
      Debug "LogoutSelfCheck: no uid" [] ;;
      return_ None
    ) ;;
    let deviceID := ActiveDevice.DeviceID (GlobalContext.ActiveDevice g) in
    when (IsNil deviceID) (
      Debug "LogoutSelfCheck: no device id" [] ;;
      return_ None
    ) ;;
    res <- APIPost m "selfcheck" uid deviceID ;;
    match res with
    | inl err => return_ (Some err)
    | inr res =>
        match GetBool m (AtKey "logout" (Body res)) with
        | inl err => return_ (Some err)
        | inr logout =>
            Debug "LogoutSelfCheck: should log out? %v" [ABool logout] ;;
            when logout (
              Debug "LogoutSelfCheck: logging out..." [] ;;
              err <- Logout m ;;
              return_ err
            ) ;;
            return_ None
        end
    end
  ).

End legacy.

(** * Specification vocabulary *)

Import libkb.

(** The decision of the policy on a session. *)
Definition permits (mctx : Collaborators) (g : GlobalContext.t) : bool :=
  keybase1.CanLogout (result (CanLogout mctx) g).

Definition isValid (g : GlobalContext.t) : bool :=
  ActiveDevice.Valid (GlobalContext.ActiveDevice g).

Definition storageMode (g : GlobalContext.t) : KeychainMode :=
  ActiveDevice.KeychainMode (GlobalContext.ActiveDevice g).

Definition activeUsername (g : GlobalContext.t) : NormalizedUsername :=
  ActiveDevice.Username (GlobalContext.ActiveDevice g).

(** The identity check answers with one of the recognised stale-state
    errors. *)
Definition staleIdentity (mctx : Collaborators) : bool :=
  match checkCurrentUIDDeviceID mctx with
  | Some err => isStaleStateError err
  | None => false
  end.

(** The answer of the password-flag query as [CanLogout] asks it, from the
    cache. *)
Definition cachedHasRandomPw (mctx : Collaborators) : error + bool :=
  loadHasRandomPw mctx {| keybase1.ForceRepoll := false |}.

Definition flaggedRandom (mctx : Collaborators) : bool :=
  match cachedHasRandomPw mctx with
  | inr b => b
  | inl _ => false
  end.

Definition passwordQueryFails (mctx : Collaborators) : bool :=
  match cachedHasRandomPw mctx with
  | inr _ => false
  | inl _ => true
  end.

(** The policy as the specification words it: apart from the stale-state
    exception, denial exactly when the storage is OS-backed and the password
    is flagged random. *)
Definition claimed_policy (mctx : Collaborators) (g : GlobalContext.t) : Prop :=
  if staleIdentity mctx then permits mctx g = true
  else permits mctx g = false <->
       storageMode g = KeychainModeOS /\ flaggedRandom mctx = true.

(** The whole decision record. *)
Definition decision (mctx : Collaborators) (g : GlobalContext.t)
  : keybase1.CanLogoutRes :=
  result (CanLogout mctx) g.

(** The policy gate of [LogoutUsernameWithOptions] lets the run through. *)
Definition gatePasses (mctx : Collaborators) (g : GlobalContext.t)
    (options : LogoutOptions) : bool :=
  KeepSecrets options || permits mctx g.

(** Log lines, as opposed to calls into collaborators and locks. *)
Definition isLogLine (e : Event) : bool :=
  match e with
  | EvDebug _ _ | EvTraceEnter _ _ | EvTraceExit _ => true
  | _ => false
  end.

Definition calls (t : list Event) : list Event :=
  List.filter (fun e => negb (isLogLine e)) t.

(** A step of the policy: its two queries and its own log lines. *)
Definition isPolicyStep (e : Event) : bool :=
  match e with
  | EvCheckCurrentUIDDeviceID | EvLoadHasRandomPw _ => true
  | EvDebug format _ => String.prefix "CanLogout:" format
  | _ => false
  end.

(** A step of the teardown: a call that changes the session, a subsystem
    or the secret store. *)
Definition isTeardownStep (e : Event) : bool :=
  match e with
  | EvClearGetKeychainMode | EvLocalSigchainGuardClear _ | EvCallLogoutHooks
  | EvClearPerUserKeyring | EvFlushCaches | EvClearSecret _ | EvConfigReload
  | EvNotifyRouterHandleLogout | EvFeatureFlagsClear
  | EvIdentifyDispatchOnLogout | EvIdentify3StateOnLogout
  | EvUPAKLoaderOnLogout | EvPegboardOnLogout => true
  | _ => false
  end.

(** The mark the [if keychainMode == KeychainModeOS] statement leaves in
    either branch: the secret-store lock, or the line saying that the pass
    is skipped. *)
Definition isSecretStorePass (e : Event) : bool :=
  match e with
  | EvAcquire secretStoreMu => true
  | EvDebug format _ => String.eqb format "Not clearing secret store in mode %d"
  | _ => false
  end.

Definition secretStorePass (mode : KeychainMode) : Event :=
  if KeychainMode_eqb mode KeychainModeOS then EvAcquire secretStoreMu
  else EvDebug "Not clearing secret store in mode %d" [AMode mode].

(** The outline of a run: its teardown steps other than the secret erase,
    and the mark of the secret-store pass. *)
Definition outline (t : list Event) : list Event :=
  List.filter
    (fun e => match e with
              | EvClearSecret _ => false
              | _ => isTeardownStep e || isSecretStorePass e
              end) t.

(** The steps of a teardown up to the fatal hook, in order. *)
Definition teardownUpToUPAK (mode : KeychainMode) : list Event :=
  [EvClearGetKeychainMode; EvLocalSigchainGuardClear "Logout";
   EvCallLogoutHooks; EvClearPerUserKeyring; EvFlushCaches;
   secretStorePass mode;
   EvConfigReload; EvNotifyRouterHandleLogout; EvFeatureFlagsClear;
   EvIdentifyDispatchOnLogout; EvIdentify3StateOnLogout;
   EvUPAKLoaderOnLogout].

(** The log arguments with the [Force] field blanked. *)
Definition blankForceArg (a : Arg) : Arg :=
  match a with
  | AOptions o => AOptions {| KeepSecrets := KeepSecrets o; Force := false |}
  | _ => a
  end.

Definition blankForce (e : Event) : Event :=
  match e with
  | EvDebug format args => EvDebug format (map blankForceArg args)
  | EvTraceEnter format args => EvTraceEnter format (map blankForceArg args)
  | _ => e
  end.

(** Replacing the session identity, as a new login does. *)
Definition withActiveDevice (d : ActiveDevice.t) (g : GlobalContext.t)
  : GlobalContext.t :=
  {| GlobalContext.ActiveDevice := d;
     GlobalContext.secretStore := GlobalContext.secretStore g;
     GlobalContext.switchedUsers := GlobalContext.switchedUsers g |}.

(** ** The steps of a run, piece by piece

    The lists below name the stretches of steps a run of
    [LogoutUsernameWithOptions] is made of; the path lemmas further down
    prove that the runs of the code are made of exactly these. *)

(** The error a denied logout returns. *)
Definition logoutError (reason : string) : error :=
  Errorf ("Cannot log out: " +:+ reason).

(** The steps of the policy on a session. *)
Definition policySteps (mctx : Collaborators) (g : GlobalContext.t) : list Event :=
  steps (CanLogout mctx) g.

(** From the entry of [LogoutUsernameWithOptions] to the end of its policy
    gate. *)
Definition gateSteps (mctx : Collaborators) (g : GlobalContext.t)
    (username : NormalizedUsername) (options : LogoutOptions) : list Event :=
  [EvTraceEnter "MetaContext#LogoutWithOptions(%#v)" [AOptions options];
   EvAcquire switchUserMu;
   EvDebug "MetaContext#logoutWithSecretKill: after switchUserMu acquisition (username: %s, options: %#v)"
           [AString username; AOptions options]]
  ++ (if KeepSecrets options then
        [EvDebug "Keeping secrets after this login, so not checking HasRandomPW" []]
      else
        [EvDebug "MetaContext#logoutWithSecretKill: checking if CanLogout" []]
        ++ policySteps mctx g
        ++ [EvDebug "MetaContext#logoutWithSecretKill: CanLogout res: %#v"
                    [ACanLogoutRes (decision mctx g)]]).

(** The deferred steps of every exit. *)
Definition exitSteps (err : option error) : list Event :=
  [EvRelease switchUserMu; EvTraceExit err].

(** From the clearing of the session to the cache flush. *)
Definition hookSteps : list Event :=
  [EvClearGetKeychainMode; EvLocalSigchainGuardClear "Logout";
   EvDebug "+ MetaContext#logoutWithSecretKill: calling logout hooks" [];
   EvCallLogoutHooks;
   EvDebug "- MetaContext#logoutWithSecretKill: called logout hooks" [];
   EvClearPerUserKeyring; EvFlushCaches].

(** The session after a successful [ClearGetKeychainMode]. *)
Definition clearedSession (g : GlobalContext.t) : GlobalContext.t :=
  withActiveDevice (ActiveDevice.clear (GlobalContext.ActiveDevice g)) g.

(** The global context and the steps after the statement that runs
    [logoutSecretStore] in OS mode and logs a line otherwise. *)
Definition afterSecretStorePass (mctx : Collaborators)
    (username : NormalizedUsername) (keep : bool) (mode : KeychainMode)
    (g : GlobalContext.t) : GlobalContext.t * list Event :=
  if KeychainMode_eqb mode KeychainModeOS then
    (final (logoutSecretStore mctx username keep) g,
     steps (logoutSecretStore mctx username keep) g)
  else (g, [EvDebug "Not clearing secret store in mode %d" [AMode mode]]).

Definition reloadSteps (mctx : Collaborators) : list Event :=
  EvConfigReload ::
  match configReload mctx with
  | Some err => [EvDebug "Logout ConfigReload error: %s" [AError err]]
  | None => []
  end.

Definition resetSteps : list Event :=
  [EvNotifyRouterHandleLogout; EvFeatureFlagsClear;
   EvIdentifyDispatchOnLogout; EvIdentify3StateOnLogout;
   EvUPAKLoaderOnLogout].

Definition pegboardSteps (mctx : Collaborators) : list Event :=
  match upakLoaderOnLogout mctx with
  | Some _ => []
  | None => [EvPegboardOnLogout]
  end.

(** The steps of [logoutSecretStore] between its lock and its unlock. *)
Definition secretStoreSteps (body : list Event) : list Event :=
  EvAcquire secretStoreMu :: body ++ [EvRelease secretStoreMu].

(** The retention set and the secret store after the two updates of
    [logoutSecretStore]. *)
Definition retain (username : NormalizedUsername) (g : GlobalContext.t)
  : GlobalContext.t :=
  {| GlobalContext.ActiveDevice := GlobalContext.ActiveDevice g;
     GlobalContext.secretStore := GlobalContext.secretStore g;
     GlobalContext.switchedUsers :=
       <[username := true]> (GlobalContext.switchedUsers g) |}.

Definition erase (username : NormalizedUsername) (g : GlobalContext.t)
  : GlobalContext.t :=
  {| GlobalContext.ActiveDevice := GlobalContext.ActiveDevice g;
     GlobalContext.secretStore := delete username <$> GlobalContext.secretStore g;
     GlobalContext.switchedUsers :=
       delete username (GlobalContext.switchedUsers g) |}.

(** The self-check got as far as asking the server. *)
Definition selfCheckSteps (g : GlobalContext.t) (logout : bool) : list Event :=
  [EvAPIPost "selfcheck"
     (ActiveDevice.UID (GlobalContext.ActiveDevice g))
     (ActiveDevice.DeviceID (GlobalContext.ActiveDevice g));
   EvDebug "LogoutSelfCheck: should log out? %v" [ABool logout]].

(** The verdict [LogoutSelfCheck] reads in a response. *)
Definition verdict (mctx : Collaborators) (res : APIRes) : error + bool :=
  GetBool mctx (AtKey "logout" (Body res)).

(** The claims the specification makes and the code does not keep, as
    stated. *)

(** "Once the gate has passed, only a failure of the verified-key loader
    makes the logout return an error." *)
Definition claimed_only_fatal_step (mctx : Collaborators) (g : GlobalContext.t)
    (username : NormalizedUsername) (options : LogoutOptions) : Prop :=
  gatePasses mctx g options = true ->
  upakLoaderOnLogout mctx = None ->
  result (LogoutUsernameWithOptions mctx username options) g = None.

(** "A logout without an active session succeeds and leaves the secret
    store and the retention set alone." *)
Definition claimed_idempotence (mctx : Collaborators) (g : GlobalContext.t)
    (options : LogoutOptions) : Prop :=
  activeUsername g = "" ->
  result (LogoutWithOptions mctx options) g = None /\
  (forall u, ~ In (EvClearSecret u) (steps (LogoutWithOptions mctx options) g)) /\
  GlobalContext.switchedUsers (final (LogoutWithOptions mctx options) g) =
  GlobalContext.switchedUsers g.

(** ** Vocabulary of the further properties *)

Definition Mutex_eqb (a b : Mutex) : bool :=
  match a, b with
  | switchUserMu, switchUserMu | secretStoreMu, secretStoreMu => true
  | _, _ => false
  end.

(** The step takes or gives back the lock [mu]. *)
Definition locks (mu : Mutex) (e : Event) : bool :=
  match e with
  | EvAcquire m | EvRelease m => Mutex_eqb m mu
  | _ => false
  end.

(** The calls of a run other than the queries of the policy. *)
Definition teardownCalls (t : list Event) : list Event :=
  List.filter (fun e => negb (isLogLine e) && negb (isPolicyStep e)) t.

(** The conditions under which the secret-store pass of a logout acts on
    the entry of [username]: the gate is passed, the session is cleared,
    the mode read before the clearing is the OS keychain, a secret store
    is configured and the username is not nil. *)
Definition reachesSecretStore (mctx : Collaborators) (g : GlobalContext.t)
    (username : NormalizedUsername) (options : LogoutOptions) : bool :=
  gatePasses mctx g options
  && match clearActiveDevice mctx with Some _ => false | None => true end
  && KeychainMode_eqb (storageMode g) KeychainModeOS
  && negb (secretStoreIsNil g)
  && negb (IsNil username).

(** ** Sample sessions *)

Module Samples.

Definition networkError : error :=
  {| errType := OtherError; Error := "API network error" |}.

Definition deviceGone : error :=
  {| errType := DeviceNotFoundError; Error := "device not found" |}.

Definition aliceDevice : ActiveDevice.t :=
  {| ActiveDevice.Valid := true;
     ActiveDevice.KeychainMode := KeychainModeOS;
     ActiveDevice.UID := "uid-alice";
     ActiveDevice.DeviceID := "device-1";
     ActiveDevice.Username := "alice" |}.

(** alice is logged in with her secret in the OS keychain. *)
Definition aliceSession : GlobalContext.t :=
  {| GlobalContext.ActiveDevice := aliceDevice;
     GlobalContext.secretStore := Some {[ "alice" := "secret-of-alice" ]};
     GlobalContext.switchedUsers := ∅ |}.

(** Nobody is logged in. *)
Definition noSession : GlobalContext.t :=
  {| GlobalContext.ActiveDevice := ActiveDevice.clear aliceDevice;
     GlobalContext.secretStore := Some {[ "alice" := "secret-of-alice" ]};
     GlobalContext.switchedUsers := ∅ |}.

(** Every collaborator succeeds, the password is user-chosen, the server
    wants the session gone. *)
Definition healthy : Collaborators :=
  {| checkCurrentUIDDeviceID := None;
     loadHasRandomPw := fun _ => inr false;
     clearActiveDevice := None;
     clearSecret := fun _ => None;
     configReload := None;
     upakLoaderOnLogout := None;
     apiPost := inr {| Body := {[ "logout" := JBool true ]} |};
     getBoolError := Errorf "not a boolean" |}.

(** The server answers that the session may stay. *)
Definition healthyStay : Collaborators :=
  {| checkCurrentUIDDeviceID := None;
     loadHasRandomPw := fun _ => inr false;
     clearActiveDevice := None;
     clearSecret := fun _ => None;
     configReload := None;
     upakLoaderOnLogout := None;
     apiPost := inr {| Body := {[ "logout" := JBool false ]} |};
     getBoolError := Errorf "not a boolean" |}.

(** The account has a random password. *)
Definition randomPw : Collaborators :=
  {| checkCurrentUIDDeviceID := None;
     loadHasRandomPw := fun _ => inr true;
     clearActiveDevice := None;
     clearSecret := fun _ => None;
     configReload := None;
     upakLoaderOnLogout := None;
     apiPost := inr {| Body := {[ "logout" := JBool true ]} |};
     getBoolError := Errorf "not a boolean" |}.

(** No network and nothing cached: both queries of the policy fail. *)
Definition offline : Collaborators :=
  {| checkCurrentUIDDeviceID := Some networkError;
     loadHasRandomPw := fun _ => inl networkError;
     clearActiveDevice := None;
     clearSecret := fun _ => None;
     configReload := None;
     upakLoaderOnLogout := None;
     apiPost := inl networkError;
     getBoolError := Errorf "not a boolean" |}.

(** The verified-key loader fails on logout. *)
Definition upakFails : Collaborators :=
  {| checkCurrentUIDDeviceID := None;
     loadHasRandomPw := fun _ => inr false;
     clearActiveDevice := None;
     clearSecret := fun _ => None;
     configReload := None;
     upakLoaderOnLogout := Some (Errorf "upak purge failed");
     apiPost := inl networkError;
     getBoolError := Errorf "not a boolean" |}.

(** Clearing the session identity fails. *)
Definition clearFails : Collaborators :=
  {| checkCurrentUIDDeviceID := None;
     loadHasRandomPw := fun _ => inr false;
     clearActiveDevice := Some (Errorf "cannot clear active device");
     clearSecret := fun _ => None;
     configReload := None;
     upakLoaderOnLogout := None;
     apiPost := inl networkError;
     getBoolError := Errorf "not a boolean" |}.

(** The secret erase and the config reload fail, nothing else does. *)
Definition hygieneFails : Collaborators :=
  {| checkCurrentUIDDeviceID := None;
     loadHasRandomPw := fun _ => inr false;
     clearActiveDevice := None;
     clearSecret := fun _ => Some (Errorf "keychain locked");
     configReload := Some (Errorf "config unreadable");
     upakLoaderOnLogout := None;
     apiPost := inl networkError;
     getBoolError := Errorf "not a boolean" |}.

Definition keep : LogoutOptions := {| KeepSecrets := true; Force := false |}.
Definition kill : LogoutOptions := {| KeepSecrets := false; Force := false |}.

End Samples.

(** * Proof tools *)

(** Unfolds the computations of the file down to the answers of the
    collaborators and the fields of the session. *)
Ltac go_unfold :=
  cbv [run result final steps func deferring bind ret return_ emit Debug getG
       putG when
       CanLogout CheckCurrentUIDDeviceID LoadHasRandomPw isStaleStateError
       ClearGetKeychainMode ClearSecret setSwitchedUser deleteSwitchedUser
       secretStoreIsNil ConfigReload UPAKLoaderOnLogout APIPost AtKey GetBool
       logoutSecretStore LogoutUsernameWithOptions LogoutWithOptions
       LogoutKillSecrets LogoutKeepSecrets LogoutSelfCheck
       legacy.logoutSecretStore legacy.LogoutUsernameWithSecretKill
       legacy.LogoutCurrentUserWithSecretKill legacy.Logout
       legacy.ClearStateForSwitchUsers legacy.LogoutSelfCheck
       permits decision isValid storageMode activeUsername staleIdentity
       cachedHasRandomPw flaggedRandom passwordQueryFails gatePasses
       withActiveDevice
       GlobalContext.ActiveDevice GlobalContext.secretStore
       GlobalContext.switchedUsers
       ActiveDevice.Valid ActiveDevice.KeychainMode ActiveDevice.UID
       ActiveDevice.DeviceID ActiveDevice.Username ActiveDevice.clear
       checkCurrentUIDDeviceID loadHasRandomPw clearActiveDevice clearSecret
       configReload upakLoaderOnLogout apiPost getBoolError
       KeepSecrets Force errType Error IsNil Body
       keybase1.CanLogout keybase1.Reason keybase1.SetPassphrase
       keybase1.CanLogoutRes_zero
       KeychainMode_eqb fst snd app orb negb andb].

Ltac go_unfold_in H :=
  cbv [run result final steps func deferring bind ret return_ emit Debug getG
       putG when
       CanLogout CheckCurrentUIDDeviceID LoadHasRandomPw isStaleStateError
       ClearGetKeychainMode ClearSecret setSwitchedUser deleteSwitchedUser
       secretStoreIsNil ConfigReload UPAKLoaderOnLogout APIPost AtKey GetBool
       logoutSecretStore LogoutUsernameWithOptions LogoutWithOptions
       LogoutKillSecrets LogoutKeepSecrets LogoutSelfCheck
       legacy.logoutSecretStore legacy.LogoutUsernameWithSecretKill
       legacy.LogoutCurrentUserWithSecretKill legacy.Logout
       legacy.ClearStateForSwitchUsers legacy.LogoutSelfCheck
       permits decision isValid storageMode activeUsername staleIdentity
       cachedHasRandomPw flaggedRandom passwordQueryFails gatePasses
       withActiveDevice
       GlobalContext.ActiveDevice GlobalContext.secretStore
       GlobalContext.switchedUsers
       ActiveDevice.Valid ActiveDevice.KeychainMode ActiveDevice.UID
       ActiveDevice.DeviceID ActiveDevice.Username ActiveDevice.clear
       checkCurrentUIDDeviceID loadHasRandomPw clearActiveDevice clearSecret
       configReload upakLoaderOnLogout apiPost getBoolError
       KeepSecrets Force errType Error IsNil Body
       keybase1.CanLogout keybase1.Reason keybase1.SetPassphrase
       keybase1.CanLogoutRes_zero
       KeychainMode_eqb fst snd app orb negb andb] in H.

(** Case analysis on whatever the unfolded computation branches on. *)
Ltac go_cases :=
  repeat (go_unfold;
          match goal with
          | |- context [match ?x with _ => _ end] =>
              first [is_var x | match x with ?f _ => is_var f end];
              destruct x eqn:?
          end).

(** Opens the records a statement quantifies over. *)
Ltac open_collaborators mctx :=
  destruct mctx as [chk load clr cs cr up post gbe].

Ltac open_session g :=
  destruct g as [[valid mode uid did uname] store switched].

(** * The policy *)

(** The policy read off the code: a denial needs a valid session whose
    storage mode is not "none", no stale-state answer of the identity
    check, and a password-flag query that fails or reports a random
    password. *)
Lemma permits_eq (mctx : Collaborators) (g : GlobalContext.t) :
  permits mctx g =
  negb (isValid g
        && negb (KeychainMode_eqb (storageMode g) KeychainModeNone)
        && negb (staleIdentity mctx)
        && (passwordQueryFails mctx || flaggedRandom mctx)).
Proof.
  open_collaborators mctx. open_session g. go_unfold.
  destruct valid; [|reflexivity].
  destruct mode; try reflexivity.
  all: destruct chk as [[ty msg]|]; [destruct ty|]; go_unfold;
    try reflexivity; destruct (load _) as [e|[]]; reflexivity.
Qed.

(** The decision record in full: the three shapes [CanLogout] returns. *)
Lemma decision_eq (mctx : Collaborators) (g : GlobalContext.t) :
  decision mctx g =
  if permits mctx g then keybase1.mkCanLogoutRes true "" false
  else match cachedHasRandomPw mctx with
       | inl err =>
           keybase1.mkCanLogoutRes false
             ("We couldn't ensure that your account has a passphrase: "
              +:+ Error err) false
       | inr _ =>
           keybase1.mkCanLogoutRes false
             "You signed up without a password and need to set a password first"
             true
       end.
Proof.
  open_collaborators mctx. open_session g. go_unfold.
  destruct valid; [|reflexivity].
  destruct mode; try reflexivity.
  all: destruct chk as [[ty msg]|]; [destruct ty|]; go_unfold;
    try reflexivity; destruct (load _) as [e|[]]; reflexivity.
Qed.

(** [CanLogout] is a query: it leaves the global context alone. *)
Lemma CanLogout_final (mctx : Collaborators) (g : GlobalContext.t) :
  final (CanLogout mctx) g = g.
Proof.
  open_collaborators mctx. open_session g. go_unfold.
  destruct valid; [|reflexivity].
  destruct mode; try reflexivity.
  all: destruct chk as [[ty msg]|]; [destruct ty|]; go_unfold;
    try reflexivity; destruct (load _) as [e|[]]; reflexivity.
Qed.

(** C1, as stated, fails.  alice is logged in with an OS-backed secret;
    the client is offline, so the identity check fails with a network
    error (not a stale-state one) and the password-flag query fails too.
    [CanLogout] denies, although nothing flags the password as random. *)
Lemma claimed_policy_fails_offline :
  ~ claimed_policy Samples.offline Samples.aliceSession.
Proof.
  unfold claimed_policy. rewrite permits_eq. cbn.
  intros [Hdeny _]. destruct (Hdeny eq_refl) as [_ Hflag]. discriminate Hflag.
Qed.

(** C1, amended: [CanLogout] denies if and only if the session is valid,
    its storage mode is not "none", the identity check did not answer with
    a recognised stale-state error, and the password-flag query either
    fails or reports a random password.  In particular a stale-state error
    always yields a permit. *)
Theorem CanLogout_denies_iff (mctx : Collaborators) (g : GlobalContext.t) :
  permits mctx g = false <->
  isValid g = true /\
  storageMode g <> KeychainModeNone /\
  staleIdentity mctx = false /\
  (passwordQueryFails mctx = true \/ flaggedRandom mctx = true).
Proof.
  rewrite permits_eq.
  destruct (isValid g), (staleIdentity mctx), (passwordQueryFails mctx),
    (flaggedRandom mctx), (storageMode g); cbn;
    intuition (congruence || discriminate).
Qed.

(** C10: a denial always carries a non-empty reason, and [SetPassphrase]
    is set exactly in the random-password denial: never in a permit, never
    in the denial caused by a failing password-flag query. *)
Theorem denial_has_reason_and_SetPassphrase_only_for_random_pw
    (mctx : Collaborators) (g : GlobalContext.t) :
  (keybase1.CanLogout (decision mctx g) = false ->
   keybase1.Reason (decision mctx g) <> "") /\
  (keybase1.SetPassphrase (decision mctx g) = true <->
   keybase1.CanLogout (decision mctx g) = false /\
   cachedHasRandomPw mctx = inr true).
Proof.
  pose proof (permits_eq mctx g) as Hp.
  rewrite decision_eq.
  unfold flaggedRandom, passwordQueryFails in Hp.
  destruct (permits mctx g); cbn.
  - split; [discriminate|]. split; [discriminate|]. intros [? _]. discriminate.
  - destruct (cachedHasRandomPw mctx) as [err|[]] eqn:Hq; cbn.
    + split; [discriminate|]. split; [discriminate|]. intros [_ ?]. discriminate.
    + split; [discriminate|]. split; auto.
    + exfalso. destruct (isValid g), (staleIdentity mctx), (storageMode g);
        discriminate Hp.
Qed.

(** The sample run behind C10: alice with a random password is denied with
    the instruction to set a password. *)
Lemma denial_has_reason_witness :
  keybase1.CanLogout (decision Samples.randomPw Samples.aliceSession) = false /\
  keybase1.Reason (decision Samples.randomPw Samples.aliceSession) <> "" /\
  keybase1.SetPassphrase (decision Samples.randomPw Samples.aliceSession) = true.
Proof.
  destruct (denial_has_reason_and_SetPassphrase_only_for_random_pw
              Samples.randomPw Samples.aliceSession) as [Hreason Hset].
  assert (Hdeny : keybase1.CanLogout (decision Samples.randomPw Samples.aliceSession) = false)
    by reflexivity.
  split; [exact Hdeny|]. split; [exact (Hreason Hdeny)|].
  apply Hset. split; [exact Hdeny|reflexivity].
Defined.

(** * The secret-store helper *)

(** C9: the earlier helper called with [killSecrets = b] and the current
    one called with [noKillSecrets = negb b] are the same computation:
    same final secret store and retention set, same steps. *)
Theorem logoutSecretStore_legacy_equiv
    (m : Collaborators) (username : NormalizedUsername) (b : bool)
    (g : GlobalContext.t) :
  run (legacy.logoutSecretStore m username b) g =
  run (libkb.logoutSecretStore m username (negb b)) g.
Proof.
  destruct b; reflexivity.
Qed.

(** * Paths through the code *)

(** Unfolds the coordinator, the secret-store helper and the self-check,
    and leaves the policy folded. *)
Ltac coord_unfold :=
  cbv [run result final steps func deferring bind ret return_ emit Debug getG
       putG when
       ClearGetKeychainMode ClearSecret setSwitchedUser deleteSwitchedUser
       secretStoreIsNil ConfigReload UPAKLoaderOnLogout APIPost
       logoutSecretStore LogoutUsernameWithOptions
       legacy.logoutSecretStore legacy.LogoutUsernameWithSecretKill
       gateSteps exitSteps hookSteps clearedSession afterSecretStorePass
       reloadSteps resetSteps pegboardSteps secretStoreSteps retain erase
       logoutError
       gatePasses withActiveDevice isValid storageMode activeUsername
       GlobalContext.ActiveDevice GlobalContext.secretStore
       GlobalContext.switchedUsers
       ActiveDevice.Valid ActiveDevice.KeychainMode ActiveDevice.UID
       ActiveDevice.DeviceID ActiveDevice.Username ActiveDevice.clear
       clearActiveDevice clearSecret configReload upakLoaderOnLogout
       KeepSecrets Force IsNil
       KeychainMode_eqb fst snd orb negb andb].

(** Brings a list of steps to the form [e1 :: ... :: (l ++ ...)]. *)
Ltac steps_norm :=
  repeat (progress cbn [app] || rewrite <- app_assoc || rewrite app_nil_r).

Ltac coord_cases :=
  repeat (coord_unfold;
          match goal with
          | |- context [match ?x with _ => _ end] =>
              first [is_var x | match x with ?f _ => is_var f end];
              destruct x eqn:?
          end).

(** The policy is a query: it returns its decision, leaves the global
    context alone and falls through in its caller. *)
Lemma CanLogout_run (R : Type) (mctx : Collaborators) (g : GlobalContext.t) :
  @CanLogout R mctx g = (inr (decision mctx g), g, policySteps mctx g).
Proof.
  open_collaborators mctx. open_session g. unfold policySteps. go_unfold.
  destruct valid; [|reflexivity].
  destruct mode; try reflexivity.
  all: destruct chk as [[ty msg]|]; [destruct ty|]; go_unfold;
    try reflexivity; destruct (load _) as [e|[]]; reflexivity.
Qed.

(** ** [logoutSecretStore] *)

Lemma logoutSecretStore_noop (m : Collaborators) (username : NormalizedUsername)
    (keep : bool) (g : GlobalContext.t) :
  secretStoreIsNil g || IsNil username = true ->
  run (logoutSecretStore m username keep) g = (tt, g, secretStoreSteps []).
Proof.
  open_session g. unfold secretStoreIsNil, IsNil. cbn.
  destruct store, username; cbn; try discriminate; reflexivity.
Qed.

Lemma logoutSecretStore_keep (m : Collaborators) (username : NormalizedUsername)
    (g : GlobalContext.t) :
  secretStoreIsNil g || IsNil username = false ->
  run (logoutSecretStore m username true) g =
  (tt, retain username g, secretStoreSteps []).
Proof.
  open_session g. unfold secretStoreIsNil, IsNil. cbn.
  destruct store, username; cbn; try discriminate; reflexivity.
Qed.

Lemma logoutSecretStore_erase_fails (m : Collaborators)
    (username : NormalizedUsername) (g : GlobalContext.t) (err : error) :
  secretStoreIsNil g || IsNil username = false ->
  clearSecret m username = Some err ->
  run (logoutSecretStore m username false) g =
  (tt, g,
   secretStoreSteps [EvClearSecret username;
                     EvDebug "clear stored secret error: %s" [AError err]]).
Proof.
  open_session g. open_collaborators m. unfold secretStoreIsNil, IsNil. cbn.
  intros Hnil Hcs.
  destruct store, username; cbn in *; try discriminate;
    coord_unfold; rewrite Hcs; coord_unfold; steps_norm; reflexivity.
Qed.

Lemma logoutSecretStore_erase (m : Collaborators)
    (username : NormalizedUsername) (g : GlobalContext.t) :
  secretStoreIsNil g || IsNil username = false ->
  clearSecret m username = None ->
  run (logoutSecretStore m username false) g =
  (tt, erase username g, secretStoreSteps [EvClearSecret username]).
Proof.
  open_session g. open_collaborators m. unfold secretStoreIsNil, IsNil. cbn.
  intros Hnil Hcs.
  destruct store, username; cbn in *; try discriminate;
    coord_unfold; rewrite Hcs; coord_unfold; steps_norm; reflexivity.
Qed.

(** ** [LogoutUsernameWithOptions] *)

(** The gate closes: nothing but the policy has run. *)
Lemma Logout_denied (mctx : Collaborators) (g : GlobalContext.t)
    (username : NormalizedUsername) (options : LogoutOptions) :
  gatePasses mctx g options = false ->
  run (LogoutUsernameWithOptions mctx username options) g =
  (Some (logoutError (keybase1.Reason (decision mctx g))), g,
   gateSteps mctx g username options
   ++ exitSteps (Some (logoutError (keybase1.Reason (decision mctx g))))).
Proof.
  destruct options as [k f]. unfold gatePasses, permits. cbn [KeepSecrets].
  fold (decision mctx g). intros Hgate.
  destruct k; [discriminate|]. cbn [orb] in Hgate.
  coord_unfold. rewrite CanLogout_run. coord_unfold. rewrite Hgate.
  coord_unfold. steps_norm. reflexivity.
Qed.

(** The gate opens and clearing the session fails: the run stops there. *)
Lemma Logout_clear_fails (mctx : Collaborators) (g : GlobalContext.t)
    (username : NormalizedUsername) (options : LogoutOptions) (err : error) :
  gatePasses mctx g options = true ->
  clearActiveDevice mctx = Some err ->
  run (LogoutUsernameWithOptions mctx username options) g =
  (Some err, g,
   gateSteps mctx g username options
   ++ [EvClearGetKeychainMode] ++ exitSteps (Some err)).
Proof.
  destruct options as [k f]. unfold gatePasses, permits. cbn [KeepSecrets].
  fold (decision mctx g). intros Hgate Hclr.
  open_collaborators mctx. open_session g. cbn in Hclr. subst clr.
  destruct k; cbn [orb] in Hgate.
  - coord_unfold. steps_norm. reflexivity.
  - coord_unfold. rewrite CanLogout_run. coord_unfold. rewrite Hgate.
    coord_unfold. steps_norm. reflexivity.
Qed.

(** The gate opens and the session is cleared: the teardown runs up to the
    verified-key loader, whose answer is the result. *)
Lemma Logout_teardown (mctx : Collaborators) (g : GlobalContext.t)
    (username : NormalizedUsername) (options : LogoutOptions) :
  gatePasses mctx g options = true ->
  clearActiveDevice mctx = None ->
  run (LogoutUsernameWithOptions mctx username options) g =
  (upakLoaderOnLogout mctx,
   (afterSecretStorePass mctx username (KeepSecrets options) (storageMode g)
      (clearedSession g)).1,
   gateSteps mctx g username options
   ++ hookSteps
   ++ (afterSecretStorePass mctx username (KeepSecrets options) (storageMode g)
         (clearedSession g)).2
   ++ reloadSteps mctx ++ resetSteps ++ pegboardSteps mctx
   ++ exitSteps (upakLoaderOnLogout mctx)).
Proof.
  destruct options as [k f]. unfold gatePasses, permits. cbn [KeepSecrets].
  fold (decision mctx g). intros Hgate Hclr.
  open_collaborators mctx. open_session g. cbn in Hclr. subst clr.
  destruct k; cbn [orb] in Hgate.
  - coord_cases; steps_norm; reflexivity.
  - coord_unfold. rewrite CanLogout_run. coord_unfold. rewrite Hgate.
    generalize (policySteps
      {| checkCurrentUIDDeviceID := chk; loadHasRandomPw := load;
         clearActiveDevice := None; clearSecret := cs; configReload := cr;
         upakLoaderOnLogout := up; apiPost := post; getBoolError := gbe |}
      {| GlobalContext.ActiveDevice :=
           {| ActiveDevice.Valid := valid; ActiveDevice.KeychainMode := mode;
              ActiveDevice.UID := uid; ActiveDevice.DeviceID := did;
              ActiveDevice.Username := uname |};
         GlobalContext.secretStore := store;
         GlobalContext.switchedUsers := switched |}).
    intros pt.
    coord_cases; steps_norm; reflexivity.
Qed.

(** ** What the steps of the policy are *)

Ltac policy_cases mctx g :=
  destruct mctx as [[[[ | | | | | ] msg]|] load clr cs cr up post gbe];
  destruct g as [[[|] [ | | ] uid did uname] store switched];
  unfold policySteps; go_cases; cbn; auto.

Lemma policySteps_policy (mctx : Collaborators) (g : GlobalContext.t) :
  forallb isPolicyStep (policySteps mctx g) = true.
Proof. policy_cases mctx g. Qed.

Lemma policySteps_nonempty (mctx : Collaborators) (g : GlobalContext.t) :
  policySteps mctx g <> [].
Proof. policy_cases mctx g; discriminate. Qed.

Lemma policySteps_outline (mctx : Collaborators) (g : GlobalContext.t) :
  outline (policySteps mctx g) = [].
Proof. policy_cases mctx g. Qed.

Lemma policySteps_In (mctx : Collaborators) (g : GlobalContext.t) (e : Event) :
  In e (policySteps mctx g) -> isPolicyStep e = true.
Proof.
  intros Hin. pose proof (policySteps_policy mctx g) as Hall.
  rewrite forallb_forall in Hall. exact (Hall e Hin).
Qed.

Lemma policySteps_no_teardown (mctx : Collaborators) (g : GlobalContext.t) :
  Forall (fun e => isTeardownStep e = false) (policySteps mctx g).
Proof.
  apply Forall_forall. intros e Hin%list_elem_of_In%policySteps_In.
  destruct e; cbn in *; congruence.
Qed.

(** Step lists by pieces. *)
Ltac forall_steps :=
  repeat first
    [ apply Forall_nil_2
    | apply Forall_cons_2; [reflexivity|]
    | apply Forall_app_2 ].

Ltac in_steps H :=
  repeat (rewrite in_app_iff in H || cbn [In] in H);
  repeat match type of H with
         | _ \/ _ => destruct H as [H|H]
         end;
  try discriminate H; try contradiction.

(** The entry point that reads the active username. *)
Lemma LogoutWithOptions_run (mctx : Collaborators) (options : LogoutOptions)
    (g : GlobalContext.t) :
  run (LogoutWithOptions mctx options) g =
  run (LogoutUsernameWithOptions mctx (activeUsername g) options) g.
Proof.
  unfold LogoutWithOptions, activeUsername.
  cbv [run func bind getG return_].
  destruct (LogoutUsernameWithOptions mctx _ options g) as [[[r|r] g'] t];
    rewrite ?app_nil_r; reflexivity.
Qed.

(** The gate does not look at [Force]. *)
Lemma gatePasses_Force (mctx : Collaborators) (g : GlobalContext.t)
    (k f : bool) :
  gatePasses mctx g {| KeepSecrets := k; Force := f |} = k || permits mctx g.
Proof. reflexivity. Qed.

(** The secret-store pass leaves the session identity alone and makes no
    step of the policy. *)
Lemma afterSecretStorePass_steps (mctx : Collaborators)
    (username : NormalizedUsername) (keep : bool) (km : KeychainMode)
    (g : GlobalContext.t) :
  Forall (fun e => isPolicyStep e = false)
    (afterSecretStorePass mctx username keep km g).2 /\
  outline (afterSecretStorePass mctx username keep km g).2 =
  [secretStorePass km] /\
  ~ In EvUPAKLoaderOnLogout (afterSecretStorePass mctx username keep km g).2 /\
  ~ In EvPegboardOnLogout (afterSecretStorePass mctx username keep km g).2.
Proof.
  open_collaborators mctx. open_session g.
  unfold afterSecretStorePass, secretStorePass.
  destruct km; cbn [KeychainMode_eqb snd].
  all: coord_cases; cbn [snd];
    (repeat split; [forall_steps | cbn; intuition discriminate ..]).
Qed.

(** * The coordinator *)

(** C2: with [KeepSecrets = false] and a denying policy the logout returns
    the error built from the policy's reason, ends in the global context it
    started from (storage mode, secret store and retention set included)
    and makes no teardown step at all; with [KeepSecrets = true] no step of
    the policy is ever made. *)
Theorem denied_logout_is_inert
    (mctx : Collaborators) (g : GlobalContext.t)
    (username : NormalizedUsername) (options : LogoutOptions) :
  (KeepSecrets options = false -> permits mctx g = false ->
   result (LogoutUsernameWithOptions mctx username options) g =
     Some (Errorf ("Cannot log out: " +:+ keybase1.Reason (decision mctx g))) /\
   final (LogoutUsernameWithOptions mctx username options) g = g /\
   Forall (fun e => isTeardownStep e = false)
     (steps (LogoutUsernameWithOptions mctx username options) g)) /\
  (KeepSecrets options = true ->
   Forall (fun e => isPolicyStep e = false)
     (steps (LogoutUsernameWithOptions mctx username options) g)).
Proof.
  split.
  - intros Hkeep Hdeny.
    assert (Hgate : gatePasses mctx g options = false).
    { unfold gatePasses. rewrite Hkeep, Hdeny. reflexivity. }
    unfold result, final, steps. rewrite (Logout_denied _ _ _ _ Hgate).
    cbn [fst snd]. repeat split.
    unfold gateSteps, exitSteps. rewrite Hkeep.
    forall_steps. apply policySteps_no_teardown.
  - intros Hkeep.
    assert (Hgate : gatePasses mctx g options = true).
    { unfold gatePasses. rewrite Hkeep. reflexivity. }
    unfold steps.
    destruct (clearActiveDevice mctx) as [err|] eqn:Hclr.
    + rewrite (Logout_clear_fails _ _ _ _ _ Hgate Hclr). cbn [snd].
      unfold gateSteps, exitSteps. rewrite Hkeep. forall_steps.
    + rewrite (Logout_teardown _ _ _ _ Hgate Hclr). cbn [snd].
      unfold gateSteps, exitSteps, hookSteps, reloadSteps, resetSteps,
        pegboardSteps.
      rewrite Hkeep.
      destruct (configReload mctx), (upakLoaderOnLogout mctx); forall_steps;
        apply afterSecretStorePass_steps.
Qed.

(** The sample run behind C2: alice has a random password; the kill-secrets
    logout is refused and her session is as before. *)
Lemma denied_logout_is_inert_witness :
  result (LogoutUsernameWithOptions Samples.randomPw "alice" Samples.kill)
    Samples.aliceSession =
  Some (Errorf "Cannot log out: You signed up without a password and need to set a password first") /\
  final (LogoutUsernameWithOptions Samples.randomPw "alice" Samples.kill)
    Samples.aliceSession = Samples.aliceSession /\
  Forall (fun e => isPolicyStep e = false)
    (steps (LogoutUsernameWithOptions Samples.randomPw "alice" Samples.keep)
       Samples.aliceSession).
Proof.
  destruct (denied_logout_is_inert Samples.randomPw Samples.aliceSession "alice"
              Samples.kill) as [Hdeny _].
  destruct (Hdeny eq_refl eq_refl) as (Hres & Hfinal & _).
  destruct (denied_logout_is_inert Samples.randomPw Samples.aliceSession "alice"
              Samples.keep) as [_ Hkeep].
  split; [exact Hres|]. split; [exact Hfinal|]. exact (Hkeep eq_refl).
Defined.

(** C3: in every run that reaches the verified-key loader and gets an
    error from it, the logout returns exactly that error, the device-trust
    hook is never called, and all earlier steps have run, in order: the
    session clear, the sigchain-guard clear, the logout hooks, the keyring
    clear, the cache flush, the secret-store pass, the config reload, the
    notification, the feature-flag reset and the two identify resets. *)
Theorem upak_failure_is_fatal
    (mctx : Collaborators) (g : GlobalContext.t)
    (username : NormalizedUsername) (options : LogoutOptions) (err : error) :
  In EvUPAKLoaderOnLogout
    (steps (LogoutUsernameWithOptions mctx username options) g) ->
  upakLoaderOnLogout mctx = Some err ->
  result (LogoutUsernameWithOptions mctx username options) g = Some err /\
  ~ In EvPegboardOnLogout
      (steps (LogoutUsernameWithOptions mctx username options) g) /\
  outline (steps (LogoutUsernameWithOptions mctx username options) g) =
  teardownUpToUPAK (storageMode g).
Proof.
  unfold result, steps. intros Hin Hup.
  destruct (gatePasses mctx g options) eqn:Hgate.
  - destruct (clearActiveDevice mctx) as [e|] eqn:Hclr.
    + exfalso. rewrite (Logout_clear_fails _ _ _ _ _ Hgate Hclr) in Hin.
      cbn [snd] in Hin. unfold gateSteps, exitSteps in Hin.
      destruct (KeepSecrets options); in_steps Hin.
      apply policySteps_In in Hin. discriminate Hin.
    + rewrite (Logout_teardown _ _ _ _ Hgate Hclr) in *. cbn [fst snd] in *.
      destruct (afterSecretStorePass_steps mctx username (KeepSecrets options)
                  (storageMode g) (clearedSession g))
        as (_ & Hpass & Hnoupak & Hnopeg).
      split; [exact Hup|]. split.
      * unfold gateSteps, exitSteps, hookSteps, reloadSteps, resetSteps,
          pegboardSteps. rewrite Hup. intros Hpeg.
        destruct (KeepSecrets options), (configReload mctx); in_steps Hpeg;
          try (apply policySteps_In in Hpeg; discriminate Hpeg);
          exact (Hnopeg Hpeg).
      * unfold outline in *. rewrite !List.filter_app, Hpass.
        unfold gateSteps, pegboardSteps, reloadSteps. rewrite Hup.
        destruct (KeepSecrets options), (configReload mctx);
          rewrite ?List.filter_app; fold (outline (policySteps mctx g));
          rewrite ?policySteps_outline; reflexivity.
  - exfalso. rewrite (Logout_denied _ _ _ _ Hgate) in Hin.
    cbn [snd] in Hin. unfold gateSteps, exitSteps in Hin.
    destruct (KeepSecrets options); in_steps Hin.
    apply policySteps_In in Hin. discriminate Hin.
Qed.

(** The sample run behind C3: alice logs out while the verified-key loader
    fails. *)
Lemma upak_failure_is_fatal_witness :
  result (LogoutUsernameWithOptions Samples.upakFails "alice" Samples.kill)
    Samples.aliceSession = Some (Errorf "upak purge failed") /\
  ~ In EvPegboardOnLogout
      (steps (LogoutUsernameWithOptions Samples.upakFails "alice" Samples.kill)
         Samples.aliceSession).
Proof.
  assert (Hin : In EvUPAKLoaderOnLogout
            (steps (LogoutUsernameWithOptions Samples.upakFails "alice" Samples.kill)
               Samples.aliceSession)).
  { vm_compute. tauto. }
  destruct (upak_failure_is_fatal Samples.upakFails Samples.aliceSession "alice"
              Samples.kill (Errorf "upak purge failed") Hin eq_refl)
    as (Hres & Hpeg & _).
  split; [exact Hres | exact Hpeg].
Defined.

(** The result of a logout, by the three ways it can end. *)
Lemma Logout_result (mctx : Collaborators) (g : GlobalContext.t)
    (username : NormalizedUsername) (options : LogoutOptions) :
  result (LogoutUsernameWithOptions mctx username options) g =
  if gatePasses mctx g options then
    match clearActiveDevice mctx with
    | Some err => Some err
    | None => upakLoaderOnLogout mctx
    end
  else Some (logoutError (keybase1.Reason (decision mctx g))).
Proof.
  unfold result.
  destruct (gatePasses mctx g options) eqn:Hgate.
  - destruct (clearActiveDevice mctx) as [err|] eqn:Hclr.
    + rewrite (Logout_clear_fails _ _ _ _ _ Hgate Hclr). reflexivity.
    + rewrite (Logout_teardown _ _ _ _ Hgate Hclr). reflexivity.
  - rewrite (Logout_denied _ _ _ _ Hgate). reflexivity.
Qed.

(** A failed secret erase is logged. *)
Lemma afterSecretStorePass_erase_logged (mctx : Collaborators)
    (username : NormalizedUsername) (keep : bool) (km : KeychainMode)
    (g : GlobalContext.t) (err : error) :
  In (EvClearSecret username) (afterSecretStorePass mctx username keep km g).2 ->
  clearSecret mctx username = Some err ->
  In (EvDebug "clear stored secret error: %s" [AError err])
     (afterSecretStorePass mctx username keep km g).2.
Proof.
  open_collaborators mctx. open_session g. cbn [clearSecret].
  unfold afterSecretStorePass. intros Hin Hcs. revert Hin.
  destruct km; cbn [KeychainMode_eqb snd].
  all: coord_cases; cbn [snd In]; intros Hin; in_steps Hin.
  all: try congruence.
  all: simplify_eq; cbn; tauto.
Qed.

(** C4, as stated, fails.  alice switches users (the gate is not even
    consulted) and the verified-key loader is fine, but clearing the
    session identity fails: the logout returns that error. *)
Lemma claimed_only_fatal_step_fails :
  ~ claimed_only_fatal_step Samples.clearFails Samples.aliceSession "alice"
      Samples.keep.
Proof.
  intros Hclaim. specialize (Hclaim eq_refl eq_refl).
  vm_compute in Hclaim. discriminate Hclaim.
Qed.

(** C4, amended: once the gate has passed, two steps are fatal.  A failure
    of the read-and-clear of the storage mode is returned at once, before
    any hook has run; otherwise the result is the answer of the
    verified-key loader, which is reached after every earlier step, and
    the device-trust hook follows exactly when that answer is no error.  A
    failure of the config reload or of the secret erase is logged and
    stops nothing. *)
Theorem fatal_steps_after_gate
    (mctx : Collaborators) (g : GlobalContext.t)
    (username : NormalizedUsername) (options : LogoutOptions) :
  gatePasses mctx g options = true ->
  result (LogoutUsernameWithOptions mctx username options) g =
    match clearActiveDevice mctx with
    | Some err => Some err
    | None => upakLoaderOnLogout mctx
    end /\
  (forall err, clearActiveDevice mctx = Some err ->
     outline (steps (LogoutUsernameWithOptions mctx username options) g) =
     [EvClearGetKeychainMode]) /\
  (clearActiveDevice mctx = None ->
     outline (steps (LogoutUsernameWithOptions mctx username options) g) =
       teardownUpToUPAK (storageMode g) ++ pegboardSteps mctx /\
     (forall err, configReload mctx = Some err ->
        In (EvDebug "Logout ConfigReload error: %s" [AError err])
           (steps (LogoutUsernameWithOptions mctx username options) g)) /\
     (forall err,
        In (EvClearSecret username)
           (steps (LogoutUsernameWithOptions mctx username options) g) ->
        clearSecret mctx username = Some err ->
        In (EvDebug "clear stored secret error: %s" [AError err])
           (steps (LogoutUsernameWithOptions mctx username options) g))).
Proof.
  intros Hgate. split; [rewrite Logout_result, Hgate; reflexivity|].
  unfold steps. split.
  - intros err Hclr. rewrite (Logout_clear_fails _ _ _ _ _ Hgate Hclr).
    cbn [snd]. unfold outline, gateSteps.
    destruct (KeepSecrets options); rewrite ?List.filter_app;
      fold (outline (policySteps mctx g)); rewrite ?policySteps_outline;
      reflexivity.
  - intros Hclr. rewrite (Logout_teardown _ _ _ _ Hgate Hclr). cbn [snd].
    destruct (afterSecretStorePass_steps mctx username (KeepSecrets options)
                (storageMode g) (clearedSession g))
      as (_ & Hpass & _ & _).
    split; [|split].
    + unfold outline in *. rewrite !List.filter_app, Hpass.
      unfold gateSteps, pegboardSteps, reloadSteps.
      destruct (KeepSecrets options), (configReload mctx),
        (upakLoaderOnLogout mctx);
        rewrite ?List.filter_app; fold (outline (policySteps mctx g));
        rewrite ?policySteps_outline; reflexivity.
    + intros err Hcr. unfold reloadSteps. rewrite Hcr.
      rewrite !in_app_iff. cbn [In]. tauto.
    + intros err Hin Hcs.
      rewrite !in_app_iff.
      right. right. left.
      apply afterSecretStorePass_erase_logged; [|exact Hcs].
      unfold gateSteps, hookSteps, reloadSteps, resetSteps, pegboardSteps,
        exitSteps in Hin.
      destruct (KeepSecrets options), (configReload mctx),
        (upakLoaderOnLogout mctx); in_steps Hin;
        try (apply policySteps_In in Hin; discriminate Hin); exact Hin.
Qed.

(** The sample run behind C4: the secret erase and the config reload both
    fail, and alice is logged out all the same. *)
Lemma fatal_steps_after_gate_witness :
  result (LogoutUsernameWithOptions Samples.hygieneFails "alice" Samples.kill)
    Samples.aliceSession = None.
Proof.
  destruct (fatal_steps_after_gate Samples.hygieneFails Samples.aliceSession
              "alice" Samples.kill eq_refl) as [Hres _].
  exact Hres.
Defined.

(** [Force] is printed by two log lines and read nowhere else. *)
Lemma gateSteps_Force (mctx : Collaborators) (g : GlobalContext.t)
    (username : NormalizedUsername) (k : bool) :
  calls (gateSteps mctx g username {| KeepSecrets := k; Force := true |}) =
  calls (gateSteps mctx g username {| KeepSecrets := k; Force := false |}) /\
  map blankForce (gateSteps mctx g username {| KeepSecrets := k; Force := true |}) =
  map blankForce (gateSteps mctx g username {| KeepSecrets := k; Force := false |}).
Proof.
  unfold gateSteps, calls. cbn [KeepSecrets]. split; reflexivity.
Qed.

(** C8: two runs that differ only in [Force] return the same result, end
    in the same global context and make the same calls in the same order;
    their steps differ at most in how the two log lines that print the
    options render the [Force] field. *)
Theorem Force_has_no_effect
    (mctx : Collaborators) (g : GlobalContext.t)
    (username : NormalizedUsername) (k : bool) :
  result (LogoutUsernameWithOptions mctx username {| KeepSecrets := k; Force := true |}) g =
  result (LogoutUsernameWithOptions mctx username {| KeepSecrets := k; Force := false |}) g /\
  final (LogoutUsernameWithOptions mctx username {| KeepSecrets := k; Force := true |}) g =
  final (LogoutUsernameWithOptions mctx username {| KeepSecrets := k; Force := false |}) g /\
  calls (steps (LogoutUsernameWithOptions mctx username {| KeepSecrets := k; Force := true |}) g) =
  calls (steps (LogoutUsernameWithOptions mctx username {| KeepSecrets := k; Force := false |}) g) /\
  map blankForce
    (steps (LogoutUsernameWithOptions mctx username {| KeepSecrets := k; Force := true |}) g) =
  map blankForce
    (steps (LogoutUsernameWithOptions mctx username {| KeepSecrets := k; Force := false |}) g).
Proof.
  destruct (gateSteps_Force mctx g username k) as [Hcalls Hblank].
  unfold result, final, steps, calls in *.
  destruct (k || permits mctx g) eqn:Hgate.
  - destruct (clearActiveDevice mctx) as [err|] eqn:Hclr.
    + rewrite !(Logout_clear_fails _ _ _ _ err) by (assumption || exact Hgate).
      cbn [fst snd]. rewrite !List.filter_app, !map_app, Hcalls, Hblank.
      repeat split.
    + rewrite !Logout_teardown by (assumption || exact Hgate).
      cbn [fst snd KeepSecrets].
      rewrite !List.filter_app, !map_app, Hcalls, Hblank.
      repeat split.
  - rewrite !Logout_denied by exact Hgate.
    cbn [fst snd]. rewrite !List.filter_app, !map_app, Hcalls, Hblank.
    repeat split.
Qed.

(** Without a username the secret-store pass does nothing. *)
Lemma nil_username_spares_secrets (mctx : Collaborators) (g : GlobalContext.t)
    (options : LogoutOptions) :
  (forall u, ~ In (EvClearSecret u)
               (steps (LogoutUsernameWithOptions mctx "" options) g)) /\
  GlobalContext.switchedUsers
    (final (LogoutUsernameWithOptions mctx "" options) g) =
  GlobalContext.switchedUsers g /\
  GlobalContext.secretStore
    (final (LogoutUsernameWithOptions mctx "" options) g) =
  GlobalContext.secretStore g.
Proof.
  unfold final, steps.
  destruct (gatePasses mctx g options) eqn:Hgate.
  - destruct (clearActiveDevice mctx) as [err|] eqn:Hclr.
    + rewrite (Logout_clear_fails _ _ _ _ _ Hgate Hclr). cbn [fst snd].
      repeat split. intros u Hin. unfold gateSteps, exitSteps in Hin.
      destruct (KeepSecrets options); in_steps Hin.
      apply policySteps_In in Hin. discriminate Hin.
    + rewrite (Logout_teardown _ _ _ _ Hgate Hclr). cbn [fst snd].
      assert (Hpass : afterSecretStorePass mctx "" (KeepSecrets options)
                        (storageMode g) (clearedSession g) =
                      (clearedSession g,
                       if KeychainMode_eqb (storageMode g) KeychainModeOS
                       then secretStoreSteps []
                       else [EvDebug "Not clearing secret store in mode %d"
                                     [AMode (storageMode g)]])).
      { unfold afterSecretStorePass, final, steps.
        rewrite logoutSecretStore_noop by apply orb_true_r.
        destruct (KeychainMode_eqb _ _); reflexivity. }
      rewrite Hpass. cbn [fst snd]. repeat split.
      intros u Hin.
      unfold gateSteps, hookSteps, reloadSteps, resetSteps, pegboardSteps,
        exitSteps, secretStoreSteps in Hin.
      destruct (KeepSecrets options), (configReload mctx),
        (upakLoaderOnLogout mctx),
        (KeychainMode_eqb (storageMode g) KeychainModeOS); in_steps Hin;
        apply policySteps_In in Hin; discriminate Hin.
  - rewrite (Logout_denied _ _ _ _ Hgate). cbn [fst snd].
    repeat split. intros u Hin. unfold gateSteps, exitSteps in Hin.
    destruct (KeepSecrets options); in_steps Hin.
    apply policySteps_In in Hin. discriminate Hin.
Qed.

(** C7, as stated, fails.  Nobody is logged in, and the verified-key
    loader fails on logout: the logout returns that error instead of
    succeeding. *)
Lemma claimed_idempotence_fails :
  ~ claimed_idempotence Samples.upakFails Samples.noSession Samples.keep.
Proof.
  intros Hclaim. destruct (Hclaim eq_refl) as [Hres _].
  vm_compute in Hres. discriminate Hres.
Qed.

(** C7, amended: a logout without an active username never calls
    [ClearSecret] and leaves the retention set and the secret store as
    they were, whatever the options; it returns success exactly when the
    policy gate passes and neither the clearing of the session nor the
    verified-key loader fails. *)
Theorem logout_without_session
    (mctx : Collaborators) (g : GlobalContext.t) (options : LogoutOptions) :
  activeUsername g = "" ->
  (forall u, ~ In (EvClearSecret u) (steps (LogoutWithOptions mctx options) g)) /\
  GlobalContext.switchedUsers (final (LogoutWithOptions mctx options) g) =
  GlobalContext.switchedUsers g /\
  GlobalContext.secretStore (final (LogoutWithOptions mctx options) g) =
  GlobalContext.secretStore g /\
  (result (LogoutWithOptions mctx options) g = None <->
   gatePasses mctx g options = true /\
   clearActiveDevice mctx = None /\
   upakLoaderOnLogout mctx = None).
Proof.
  intros Hnil.
  unfold result, final, steps. rewrite LogoutWithOptions_run, Hnil.
  destruct (nil_username_spares_secrets mctx g options) as (Hcs & Hsw & Hst).
  split; [exact Hcs|]. split; [exact Hsw|]. split; [exact Hst|].
  fold (result (LogoutUsernameWithOptions mctx "" options) g).
  rewrite Logout_result.
  destruct (gatePasses mctx g options), (clearActiveDevice mctx),
    (upakLoaderOnLogout mctx); intuition discriminate.
Qed.

(** The sample run behind C7: nobody is logged in and every collaborator
    is healthy. *)
Lemma logout_without_session_witness :
  result (LogoutWithOptions Samples.healthy Samples.kill) Samples.noSession = None /\
  GlobalContext.switchedUsers
    (final (LogoutWithOptions Samples.healthy Samples.kill) Samples.noSession) =
  GlobalContext.switchedUsers Samples.noSession.
Proof.
  destruct (logout_without_session Samples.healthy Samples.noSession Samples.kill
              eq_refl) as (_ & Hsw & _ & Hres).
  split; [|exact Hsw].
  apply Hres. repeat split.
Defined.

(** A kill-secrets logout that erased the secret of [username] has taken
    [username] out of the retention set. *)
Lemma erase_leaves_retention_set (mctx : Collaborators) (g : GlobalContext.t)
    (username : NormalizedUsername) (f : bool) :
  In (EvClearSecret username)
     (steps (LogoutUsernameWithOptions mctx username
               {| KeepSecrets := false; Force := f |}) g) ->
  clearSecret mctx username = None ->
  GlobalContext.switchedUsers
    (final (LogoutUsernameWithOptions mctx username
              {| KeepSecrets := false; Force := f |}) g) !! username = None.
Proof.
  unfold final, steps. intros Hin Hcs.
  destruct (gatePasses mctx g {| KeepSecrets := false; Force := f |}) eqn:Hgate.
  - destruct (clearActiveDevice mctx) as [err|] eqn:Hclr.
    + exfalso. rewrite (Logout_clear_fails _ _ _ _ _ Hgate Hclr) in Hin.
      cbn [snd] in Hin. unfold gateSteps, exitSteps in Hin.
      cbn [KeepSecrets] in Hin. in_steps Hin.
      apply policySteps_In in Hin. discriminate Hin.
    + rewrite (Logout_teardown _ _ _ _ Hgate Hclr) in *.
      cbn [fst snd KeepSecrets] in *.
      unfold afterSecretStorePass, final, steps in *.
      destruct (KeychainMode_eqb (storageMode g) KeychainModeOS).
      * destruct (secretStoreIsNil (clearedSession g) || IsNil username) eqn:Hnil.
        -- exfalso. rewrite (logoutSecretStore_noop _ _ _ _ Hnil) in Hin.
           unfold gateSteps, hookSteps, reloadSteps, resetSteps, pegboardSteps,
             exitSteps, secretStoreSteps in Hin. cbn [KeepSecrets fst snd] in Hin.
           destruct (configReload mctx), (upakLoaderOnLogout mctx); in_steps Hin;
             apply policySteps_In in Hin; discriminate Hin.
        -- rewrite (logoutSecretStore_erase _ _ _ Hnil Hcs). cbn [fst snd].
           unfold erase. cbn [GlobalContext.switchedUsers].
           apply lookup_delete_eq.
      * exfalso. cbn [fst snd] in Hin.
        unfold gateSteps, hookSteps, reloadSteps, resetSteps, pegboardSteps,
          exitSteps in Hin. cbn [KeepSecrets] in Hin.
        destruct (configReload mctx), (upakLoaderOnLogout mctx); in_steps Hin;
          apply policySteps_In in Hin; discriminate Hin.
  - exfalso. rewrite (Logout_denied _ _ _ _ Hgate) in Hin.
    cbn [snd] in Hin. unfold gateSteps, exitSteps in Hin.
    cbn [KeepSecrets] in Hin. in_steps Hin.
    apply policySteps_In in Hin. discriminate Hin.
Qed.

(** C5: let [U] be a non-empty username, with a secret store configured
    and the session in OS keychain mode.  After a keep-secrets logout of
    [U] that got past the clearing of the session, [U] is in the retention
    set, the secret store is what it was and [ClearSecret] was not called
    for [U].  After any later login, a kill-secrets logout of [U] in which
    [ClearSecret] is called and succeeds leaves [U] out of the retention
    set. *)
Theorem retention_invariant
    (mctx : Collaborators) (g : GlobalContext.t) (U : NormalizedUsername)
    (store : gmap string Secret) (f : bool) :
  IsNil U = false ->
  GlobalContext.secretStore g = Some store ->
  storageMode g = KeychainModeOS ->
  clearActiveDevice mctx = None ->
  GlobalContext.switchedUsers
    (final (LogoutUsernameWithOptions mctx U {| KeepSecrets := true; Force := f |}) g)
    !! U = Some true /\
  GlobalContext.secretStore
    (final (LogoutUsernameWithOptions mctx U {| KeepSecrets := true; Force := f |}) g)
    = Some store /\
  ~ In (EvClearSecret U)
      (steps (LogoutUsernameWithOptions mctx U {| KeepSecrets := true; Force := f |}) g) /\
  (forall (mctx' : Collaborators) (login : ActiveDevice.t) (f' : bool),
     In (EvClearSecret U)
        (steps (LogoutUsernameWithOptions mctx' U {| KeepSecrets := false; Force := f' |})
           (withActiveDevice login
              (final (LogoutUsernameWithOptions mctx U
                        {| KeepSecrets := true; Force := f |}) g))) ->
     clearSecret mctx' U = None ->
     GlobalContext.switchedUsers
       (final (LogoutUsernameWithOptions mctx' U {| KeepSecrets := false; Force := f' |})
          (withActiveDevice login
             (final (LogoutUsernameWithOptions mctx U
                       {| KeepSecrets := true; Force := f |}) g)))
       !! U = None).
Proof.
  intros HU Hstore Hmode Hclr.
  split; [|split; [|split]].
  4: { intros mctx' login f'. apply erase_leaves_retention_set. }
  all: unfold final, steps.
  all: rewrite (Logout_teardown mctx g U {| KeepSecrets := true; Force := f |}
                  eq_refl Hclr).
  all: cbn [fst snd KeepSecrets].
  all: unfold afterSecretStorePass, final, steps; rewrite Hmode.
  all: cbn [KeychainMode_eqb].
  all: rewrite logoutSecretStore_keep
    by (unfold secretStoreIsNil, clearedSession, withActiveDevice;
        cbn [GlobalContext.secretStore]; rewrite Hstore, HU; reflexivity).
  all: cbn [fst snd].
  - unfold retain. cbn [GlobalContext.switchedUsers]. apply lookup_insert_eq.
  - unfold retain, clearedSession, withActiveDevice.
    cbn [GlobalContext.secretStore]. exact Hstore.
  - unfold gateSteps, hookSteps, reloadSteps, resetSteps, pegboardSteps,
      exitSteps, secretStoreSteps. cbn [KeepSecrets]. intros Hin.
    destruct (configReload mctx), (upakLoaderOnLogout mctx); in_steps Hin.
Qed.

(** The sample run behind C5: alice switches away keeping her secret, logs
    in again and then logs out for good. *)
Lemma retention_invariant_witness :
  GlobalContext.switchedUsers
    (final (LogoutUsernameWithOptions Samples.healthy "alice" Samples.keep)
       Samples.aliceSession) !! "alice" = Some true /\
  GlobalContext.switchedUsers
    (final (LogoutUsernameWithOptions Samples.healthy "alice" Samples.kill)
       (withActiveDevice Samples.aliceDevice
          (final (LogoutUsernameWithOptions Samples.healthy "alice" Samples.keep)
             Samples.aliceSession))) !! "alice" = None.
Proof.
  destruct (retention_invariant Samples.healthy Samples.aliceSession "alice"
              {[ "alice" := "secret-of-alice" ]} false
              eq_refl eq_refl eq_refl eq_refl)
    as (Hkept & _ & _ & Hkill).
  split; [exact Hkept|].
  apply (Hkill Samples.healthy Samples.aliceDevice false); [|reflexivity].
  vm_compute. tauto.
Defined.

(** * The self-check *)

(** The kill-secrets wrapper is the logout of the active username with
    [KeepSecrets = false]. *)
Lemma LogoutKillSecrets_run (mctx : Collaborators) (g : GlobalContext.t) :
  run (LogoutKillSecrets mctx) g =
  run (LogoutUsernameWithOptions mctx (activeUsername g)
         {| KeepSecrets := false; Force := false |}) g.
Proof.
  rewrite <- LogoutWithOptions_run.
  unfold LogoutKillSecrets. cbv [run func bind return_].
  destruct (LogoutWithOptions mctx _ g) as [[[r|r] g'] t];
    rewrite ?app_nil_r; reflexivity.
Qed.

(** The self-check once the server has answered with a verdict. *)
Lemma LogoutSelfCheck_run (mctx : Collaborators) (g : GlobalContext.t)
    (res : APIRes) (logout : bool) :
  IsNil (ActiveDevice.UID (GlobalContext.ActiveDevice g)) = false ->
  IsNil (ActiveDevice.DeviceID (GlobalContext.ActiveDevice g)) = false ->
  apiPost mctx = inr res ->
  verdict mctx res = inr logout ->
  run (LogoutSelfCheck mctx) g =
  if logout then
    ((run (LogoutKillSecrets mctx) g).1.1,
     (run (LogoutKillSecrets mctx) g).1.2,
     selfCheckSteps g true
     ++ [EvDebug "LogoutSelfCheck: logging out..." []]
     ++ (run (LogoutKillSecrets mctx) g).2)
  else (None, g, selfCheckSteps g false).
Proof.
  unfold verdict, selfCheckSteps. intros Huid Hdid Hpost Hverdict.
  unfold LogoutSelfCheck.
  cbv [run func bind getG return_ when Debug emit ret APIPost].
  rewrite Huid, Hdid, Hpost, Hverdict.
  destruct logout.
  - destruct (LogoutKillSecrets mctx g) as [[[r|r] g'] t]; cbn;
      rewrite ?app_nil_r; reflexivity.
  - reflexivity.
Qed.

(** C6: when the server's response is received and its verdict parses as
    [true], the self-check is the kill-secrets logout of the active
    username: the same result, the same final global context, and after
    the request and two log lines the very steps of that logout, policy
    gate and hooks included.  When the verdict parses as [false] it
    returns success, changes nothing and makes no further step. *)
Theorem self_check_runs_full_logout
    (mctx : Collaborators) (g : GlobalContext.t) (res : APIRes) :
  IsNil (ActiveDevice.UID (GlobalContext.ActiveDevice g)) = false ->
  IsNil (ActiveDevice.DeviceID (GlobalContext.ActiveDevice g)) = false ->
  apiPost mctx = inr res ->
  (verdict mctx res = inr true ->
   result (LogoutSelfCheck mctx) g =
     result (LogoutUsernameWithOptions mctx (activeUsername g)
               {| KeepSecrets := false; Force := false |}) g /\
   final (LogoutSelfCheck mctx) g =
     final (LogoutUsernameWithOptions mctx (activeUsername g)
              {| KeepSecrets := false; Force := false |}) g /\
   steps (LogoutSelfCheck mctx) g =
     selfCheckSteps g true
     ++ [EvDebug "LogoutSelfCheck: logging out..." []]
     ++ steps (LogoutUsernameWithOptions mctx (activeUsername g)
                 {| KeepSecrets := false; Force := false |}) g) /\
  (verdict mctx res = inr false ->
   result (LogoutSelfCheck mctx) g = None /\
   final (LogoutSelfCheck mctx) g = g /\
   steps (LogoutSelfCheck mctx) g = selfCheckSteps g false).
Proof.
  intros Huid Hdid Hpost. split; intros Hverdict.
  - unfold result, final, steps.
    rewrite (LogoutSelfCheck_run _ _ _ _ Huid Hdid Hpost Hverdict).
    rewrite LogoutKillSecrets_run. repeat split.
  - unfold result, final, steps.
    rewrite (LogoutSelfCheck_run _ _ _ _ Huid Hdid Hpost Hverdict).
    repeat split.
Qed.

(** The sample runs behind C6: the server tells alice's client to log out,
    and her secret is erased; or it tells the client to stay. *)
Lemma self_check_runs_full_logout_witness :
  result (LogoutSelfCheck Samples.healthy) Samples.aliceSession =
    result (LogoutUsernameWithOptions Samples.healthy "alice" Samples.kill)
      Samples.aliceSession /\
  final (LogoutSelfCheck Samples.healthyStay) Samples.aliceSession =
    Samples.aliceSession.
Proof.
  destruct (self_check_runs_full_logout Samples.healthy Samples.aliceSession
              {| Body := {[ "logout" := JBool true ]} |}
              eq_refl eq_refl eq_refl) as [Htrue _].
  destruct (self_check_runs_full_logout Samples.healthyStay Samples.aliceSession
              {| Body := {[ "logout" := JBool false ]} |}
              eq_refl eq_refl eq_refl) as [_ Hfalse].
  destruct (Htrue eq_refl) as (Hres & _ & _).
  destruct (Hfalse eq_refl) as (_ & Hfinal & _).
  split; [exact Hres | exact Hfinal].
Defined.

(** * Further properties of the code *)

(** ** The secret-store helper, case by case *)

(** The four ways through [logoutSecretStore]. *)
Lemma logoutSecretStore_cases (m : Collaborators) (username : NormalizedUsername)
    (keep : bool) (g : GlobalContext.t) :
  (secretStoreIsNil g || IsNil username = true /\
   run (logoutSecretStore m username keep) g = (tt, g, secretStoreSteps [])) \/
  (secretStoreIsNil g || IsNil username = false /\ keep = true /\
   run (logoutSecretStore m username keep) g =
   (tt, retain username g, secretStoreSteps [])) \/
  (exists err,
     secretStoreIsNil g || IsNil username = false /\ keep = false /\
     clearSecret m username = Some err /\
     run (logoutSecretStore m username keep) g =
     (tt, g,
      secretStoreSteps [EvClearSecret username;
                        EvDebug "clear stored secret error: %s" [AError err]])) \/
  (secretStoreIsNil g || IsNil username = false /\ keep = false /\
   clearSecret m username = None /\
   run (logoutSecretStore m username keep) g =
   (tt, erase username g, secretStoreSteps [EvClearSecret username])).
Proof.
  destruct (secretStoreIsNil g || IsNil username) eqn:Hnil.
  - left. split; [reflexivity|]. apply logoutSecretStore_noop, Hnil.
  - right. destruct keep.
    + left. repeat split. apply logoutSecretStore_keep, Hnil.
    + right. destruct (clearSecret m username) as [err|] eqn:Hcs.
      * left. exists err. repeat split.
        apply logoutSecretStore_erase_fails; assumption.
      * right. repeat split. apply logoutSecretStore_erase; assumption.
Qed.

(** X1: on every way out of [logoutSecretStore], the early returns
    included, the secret-store lock taken at entry is given back as the
    last step, and it is neither taken nor given back in between. *)
Theorem logoutSecretStore_holds_lock
    (m : Collaborators) (username : NormalizedUsername) (keep : bool)
    (g : GlobalContext.t) :
  exists body,
    steps (logoutSecretStore m username keep) g =
    EvAcquire secretStoreMu :: body ++ [EvRelease secretStoreMu] /\
    Forall (fun e => locks secretStoreMu e = false) body.
Proof.
  unfold steps.
  destruct (logoutSecretStore_cases m username keep g)
    as [[_ Hrun]|[(_ & _ & Hrun)|[(err & _ & _ & _ & Hrun)|(_ & _ & _ & Hrun)]]];
    rewrite Hrun; cbn [snd]; unfold secretStoreSteps;
    eexists; (split; [reflexivity|forall_steps]).
Qed.

(** X2: [logoutSecretStore] changes the retention set at the entry of
    [username] only, and leaves the session identity alone. *)
Theorem logoutSecretStore_frame
    (m : Collaborators) (username other : NormalizedUsername) (keep : bool)
    (g : GlobalContext.t) :
  other <> username ->
  GlobalContext.switchedUsers (final (logoutSecretStore m username keep) g)
    !! other = GlobalContext.switchedUsers g !! other /\
  GlobalContext.ActiveDevice (final (logoutSecretStore m username keep) g) =
  GlobalContext.ActiveDevice g.
Proof.
  intros Hne. unfold final.
  destruct (logoutSecretStore_cases m username keep g)
    as [[_ Hrun]|[(_ & _ & Hrun)|[(err & _ & _ & _ & Hrun)|(_ & _ & _ & Hrun)]]];
    rewrite Hrun; cbn [fst snd]; unfold retain, erase;
    cbn [GlobalContext.switchedUsers GlobalContext.ActiveDevice];
    (split; [|reflexivity]).
  - reflexivity.
  - apply lookup_insert_ne. congruence.
  - reflexivity.
  - apply lookup_delete_ne. congruence.
Qed.

(** bob switches away while alice is marked as retained: alice's mark
    stays. *)
Lemma logoutSecretStore_frame_witness :
  GlobalContext.switchedUsers
    (final (logoutSecretStore Samples.healthy "bob" true)
       (retain "alice" Samples.aliceSession)) !! "alice" = Some true.
Proof.
  destruct (logoutSecretStore_frame Samples.healthy "bob" "alice" true
              (retain "alice" Samples.aliceSession)) as [Hsame _].
  - discriminate.
  - etrans; [exact Hsame|reflexivity].
Defined.

(** X3: when [ClearSecret] fails, [logoutSecretStore] leaves the global
    context exactly as it was; in particular a user marked as retained
    stays marked. *)
Theorem failed_erase_changes_nothing
    (m : Collaborators) (username : NormalizedUsername) (g : GlobalContext.t)
    (err : error) :
  clearSecret m username = Some err ->
  final (logoutSecretStore m username false) g = g.
Proof.
  intros Hcs. unfold final.
  destruct (logoutSecretStore_cases m username false g)
    as [[_ Hrun]|[(_ & Hkeep & _)|[(e & _ & _ & _ & Hrun)|(_ & _ & Hnone & _)]]];
    try discriminate; try congruence; rewrite Hrun; reflexivity.
Qed.

Lemma failed_erase_changes_nothing_witness :
  final (logoutSecretStore Samples.hygieneFails "alice" false)
    (retain "alice" Samples.aliceSession) =
  retain "alice" Samples.aliceSession.
Proof.
  exact (failed_erase_changes_nothing Samples.hygieneFails "alice"
           (retain "alice" Samples.aliceSession) (Errorf "keychain locked")
           eq_refl).
Defined.

(** X4: retaining and then erasing is a round trip on the retention set:
    for a user who was not marked, a keep-secrets pass followed by a
    kill-secrets pass whose erase succeeds gives back the retention set
    one started from. *)
Theorem retain_then_erase_round_trip
    (m m' : Collaborators) (username : NormalizedUsername) (g : GlobalContext.t) :
  GlobalContext.switchedUsers g !! username = None ->
  clearSecret m' username = None ->
  GlobalContext.switchedUsers
    (final (logoutSecretStore m' username false)
       (final (logoutSecretStore m username true) g)) =
  GlobalContext.switchedUsers g.
Proof.
  intros Hfresh Hcs. unfold final.
  destruct (secretStoreIsNil g || IsNil username) eqn:Hnil.
  - rewrite (logoutSecretStore_noop m _ _ _ Hnil). cbn [fst snd].
    rewrite (logoutSecretStore_noop m' _ _ _ Hnil). reflexivity.
  - rewrite (logoutSecretStore_keep m _ _ Hnil). cbn [fst snd].
    rewrite (logoutSecretStore_erase m' username (retain username g)) by assumption.
    cbn [fst snd]. unfold erase, retain. cbn [GlobalContext.switchedUsers].
    rewrite delete_insert_eq. apply delete_id, Hfresh.
Qed.

Lemma retain_then_erase_round_trip_witness :
  GlobalContext.switchedUsers
    (final (logoutSecretStore Samples.healthy "alice" false)
       (final (logoutSecretStore Samples.healthy "alice" true)
          Samples.aliceSession)) =
  GlobalContext.switchedUsers Samples.aliceSession.
Proof.
  exact (retain_then_erase_round_trip Samples.healthy Samples.healthy "alice"
           Samples.aliceSession eq_refl eq_refl).
Defined.

(** ** The policy as a query *)

(** X5: [CanLogout] never changes the global context, and it asks no more
    than it needs: nothing at all for an invalid session or a session in
    mode "none"; otherwise the identity check, and after it the
    password-flag query, from the cache ([ForceRepoll] false), unless the
    check answered with a stale-state error. *)
Theorem CanLogout_queries (mctx : Collaborators) (g : GlobalContext.t) :
  final (CanLogout mctx) g = g /\
  calls (policySteps mctx g) =
  if isValid g && negb (KeychainMode_eqb (storageMode g) KeychainModeNone) then
    EvCheckCurrentUIDDeviceID ::
    (if staleIdentity mctx then []
     else [EvLoadHasRandomPw {| keybase1.ForceRepoll := false |}])
  else [].
Proof.
  split.
  - unfold final, run. rewrite CanLogout_run. reflexivity.
  - policy_cases mctx g.
Qed.

(** ** The self-check at its early exits *)

(** X6: without a user id, or without a device id, the self-check returns
    success, leaves the global context alone and makes no call at all: no
    request is sent and no logout is run. *)
Theorem self_check_without_identity
    (mctx : Collaborators) (g : GlobalContext.t) :
  IsNil (ActiveDevice.UID (GlobalContext.ActiveDevice g)) = true \/
  IsNil (ActiveDevice.DeviceID (GlobalContext.ActiveDevice g)) = true ->
  result (LogoutSelfCheck mctx) g = None /\
  final (LogoutSelfCheck mctx) g = g /\
  calls (steps (LogoutSelfCheck mctx) g) = [].
Proof.
  intros Hnil. unfold result, final, steps, LogoutSelfCheck.
  cbv [run func bind getG return_ when Debug emit ret APIPost].
  destruct (IsNil (ActiveDevice.UID (GlobalContext.ActiveDevice g))) eqn:Huid.
  - repeat split.
  - destruct Hnil as [Hnil|Hnil]; [discriminate|].
    rewrite Hnil. repeat split.
Qed.

(** Nobody is logged in, and the server would ask for a logout: it is not
    even asked. *)
Lemma self_check_without_identity_witness :
  calls (steps (LogoutSelfCheck Samples.healthy) Samples.noSession) = [].
Proof.
  destruct (self_check_without_identity Samples.healthy Samples.noSession
              (or_introl eq_refl)) as (_ & _ & Hcalls).
  exact Hcalls.
Defined.

(** X7: when the request to the server fails, or its response holds no
    boolean verdict, the self-check returns that very error after the one
    request, changes nothing and runs no logout. *)
Theorem self_check_returns_request_errors
    (mctx : Collaborators) (g : GlobalContext.t) (err : error) :
  IsNil (ActiveDevice.UID (GlobalContext.ActiveDevice g)) = false ->
  IsNil (ActiveDevice.DeviceID (GlobalContext.ActiveDevice g)) = false ->
  apiPost mctx = inl err \/
  (exists res, apiPost mctx = inr res /\ verdict mctx res = inl err) ->
  result (LogoutSelfCheck mctx) g = Some err /\
  final (LogoutSelfCheck mctx) g = g /\
  steps (LogoutSelfCheck mctx) g =
  [EvAPIPost "selfcheck"
     (ActiveDevice.UID (GlobalContext.ActiveDevice g))
     (ActiveDevice.DeviceID (GlobalContext.ActiveDevice g))].
Proof.
  intros Huid Hdid Herr. unfold result, final, steps, LogoutSelfCheck, verdict in *.
  cbv [run func bind getG return_ when Debug emit ret APIPost].
  rewrite Huid, Hdid.
  destruct Herr as [Hpost|(res & Hpost & Hverdict)]; rewrite Hpost.
  - repeat split.
  - rewrite Hverdict. repeat split.
Qed.

(** alice's client is offline: the self-check returns the network error. *)
Lemma self_check_returns_request_errors_witness :
  result (LogoutSelfCheck Samples.offline) Samples.aliceSession =
    Some Samples.networkError /\
  final (LogoutSelfCheck Samples.offline) Samples.aliceSession =
    Samples.aliceSession.
Proof.
  destruct (self_check_returns_request_errors Samples.offline
              Samples.aliceSession Samples.networkError eq_refl eq_refl
              (or_introl eq_refl)) as (Hres & Hfinal & _).
  split; [exact Hres | exact Hfinal].
Defined.

(** X8: a logout asked for by the server goes through the policy gate like
    any other.  When the verdict is [true] and the policy denies, the
    self-check returns the denial, the session, the secret store and the
    retention set stay as they were, and no teardown step is made. *)
Theorem forced_logout_is_gated
    (mctx : Collaborators) (g : GlobalContext.t) (res : APIRes) :
  IsNil (ActiveDevice.UID (GlobalContext.ActiveDevice g)) = false ->
  IsNil (ActiveDevice.DeviceID (GlobalContext.ActiveDevice g)) = false ->
  apiPost mctx = inr res ->
  verdict mctx res = inr true ->
  permits mctx g = false ->
  result (LogoutSelfCheck mctx) g =
    Some (logoutError (keybase1.Reason (decision mctx g))) /\
  final (LogoutSelfCheck mctx) g = g /\
  Forall (fun e => isTeardownStep e = false) (steps (LogoutSelfCheck mctx) g).
Proof.
  intros Huid Hdid Hpost Hverdict Hdeny.
  unfold result, final, steps.
  rewrite (LogoutSelfCheck_run _ _ _ _ Huid Hdid Hpost Hverdict).
  rewrite LogoutKillSecrets_run.
  rewrite (Logout_denied mctx g (activeUsername g)
             {| KeepSecrets := false; Force := false |})
    by (unfold gatePasses; cbn [KeepSecrets orb]; exact Hdeny).
  cbn [fst snd]. repeat split.
  unfold selfCheckSteps, gateSteps, exitSteps. cbn [KeepSecrets].
  forall_steps. apply policySteps_no_teardown.
Qed.

(** The server tells the client of a random-password account to log out:
    the account stays logged in. *)
Lemma forced_logout_is_gated_witness :
  final (LogoutSelfCheck Samples.randomPw) Samples.aliceSession =
  Samples.aliceSession.
Proof.
  destruct (forced_logout_is_gated Samples.randomPw Samples.aliceSession
              {| Body := {[ "logout" := JBool true ]} |}
              eq_refl eq_refl eq_refl eq_refl eq_refl) as (_ & Hfinal & _).
  exact Hfinal.
Defined.

(** ** The coordinator: locks, secrets and the retention set *)

(** The secret-store pass in closed form. *)
Lemma afterSecretStorePass_eq (mctx : Collaborators)
    (username : NormalizedUsername) (keep : bool) (km : KeychainMode)
    (g : GlobalContext.t) :
  afterSecretStorePass mctx username keep km g =
  if KeychainMode_eqb km KeychainModeOS then
    if secretStoreIsNil g || IsNil username then (g, secretStoreSteps [])
    else if keep then (retain username g, secretStoreSteps [])
    else match clearSecret mctx username with
         | Some err =>
             (g, secretStoreSteps
                   [EvClearSecret username;
                    EvDebug "clear stored secret error: %s" [AError err]])
         | None => (erase username g, secretStoreSteps [EvClearSecret username])
         end
  else (g, [EvDebug "Not clearing secret store in mode %d" [AMode km]]).
Proof.
  unfold afterSecretStorePass, final, steps.
  destruct (KeychainMode_eqb km KeychainModeOS); [|reflexivity].
  destruct (logoutSecretStore_cases mctx username keep g)
    as [[Hnil Hrun]|[(Hnil & -> & Hrun)|[(err & Hnil & -> & Hcs & Hrun)
                                        |(Hnil & -> & Hcs & Hrun)]]];
    rewrite Hrun, Hnil, ?Hcs; reflexivity.
Qed.

Lemma policySteps_no_locks (mu : Mutex) (mctx : Collaborators)
    (g : GlobalContext.t) :
  Forall (fun e => locks mu e = false) (policySteps mctx g).
Proof.
  apply Forall_forall. intros e Hin%list_elem_of_In%policySteps_In.
  destruct e; cbn in *; congruence.
Qed.

Lemma teardownCalls_policySteps (mctx : Collaborators) (g : GlobalContext.t) :
  teardownCalls (policySteps mctx g) = [].
Proof.
  unfold teardownCalls. pose proof (policySteps_policy mctx g) as Hall.
  induction (policySteps mctx g) as [|e t IH]; [reflexivity|].
  cbn in Hall. apply andb_prop in Hall as [He Ht].
  cbn. rewrite He, andb_false_r. auto.
Qed.

Lemma teardownCalls_app (s t : list Event) :
  teardownCalls (s ++ t) = teardownCalls s ++ teardownCalls t.
Proof. apply List.filter_app. Qed.

(** Finds an equation that holds by computation in a disjunction. *)
Ltac find_in := solve [reflexivity | left; find_in | right; find_in].

(** X9: every run of [LogoutUsernameWithOptions], denied, stopped or
    complete, opens with the trace line and the taking of the switch-user
    lock and closes with the release of that lock and the trace of the
    error it returns; the lock is neither taken nor released in between,
    so that every step of the policy and of the teardown is made while it
    is held. *)
Theorem logout_holds_switch_user_lock
    (mctx : Collaborators) (g : GlobalContext.t)
    (username : NormalizedUsername) (options : LogoutOptions) :
  exists body,
    steps (LogoutUsernameWithOptions mctx username options) g =
    EvTraceEnter "MetaContext#LogoutWithOptions(%#v)" [AOptions options]
    :: EvAcquire switchUserMu
    :: body
    ++ [EvRelease switchUserMu;
        EvTraceExit (result (LogoutUsernameWithOptions mctx username options) g)] /\
    Forall (fun e => locks switchUserMu e = false) body.
Proof.
  unfold steps, result.
  assert (Hgate_body :
    Forall (fun e => locks switchUserMu e = false)
      (skipn 2 (gateSteps mctx g username options))).
  { unfold gateSteps. cbn [app skipn].
    destruct (KeepSecrets options); forall_steps.
    apply policySteps_no_locks. }
  assert (Hgate_split :
    gateSteps mctx g username options =
    EvTraceEnter "MetaContext#LogoutWithOptions(%#v)" [AOptions options]
    :: EvAcquire switchUserMu :: skipn 2 (gateSteps mctx g username options)).
  { reflexivity. }
  destruct (gatePasses mctx g options) eqn:Hgate.
  - destruct (clearActiveDevice mctx) as [err|] eqn:Hclr.
    + rewrite (Logout_clear_fails _ _ _ _ _ Hgate Hclr). cbn [fst snd].
      exists (skipn 2 (gateSteps mctx g username options)
              ++ [EvClearGetKeychainMode]).
      split.
      * rewrite Hgate_split at 1. unfold exitSteps.
        cbn [app]. rewrite <- !app_assoc. reflexivity.
      * apply Forall_app_2; [exact Hgate_body|forall_steps].
    + rewrite (Logout_teardown _ _ _ _ Hgate Hclr). cbn [fst snd].
      exists (skipn 2 (gateSteps mctx g username options)
              ++ hookSteps
              ++ (afterSecretStorePass mctx username (KeepSecrets options)
                    (storageMode g) (clearedSession g)).2
              ++ reloadSteps mctx ++ resetSteps ++ pegboardSteps mctx).
      split.
      * rewrite Hgate_split at 1. unfold exitSteps.
        cbn [app]. rewrite <- !app_assoc. reflexivity.
      * apply Forall_app_2; [exact Hgate_body|].
        rewrite afterSecretStorePass_eq.
        unfold hookSteps, reloadSteps, resetSteps, pegboardSteps,
          secretStoreSteps.
        destruct (KeychainMode_eqb (storageMode g) KeychainModeOS),
          (secretStoreIsNil (clearedSession g) || IsNil username),
          (KeepSecrets options), (clearSecret mctx username),
          (configReload mctx), (upakLoaderOnLogout mctx);
          cbn [fst snd]; forall_steps.
  - rewrite (Logout_denied _ _ _ _ Hgate). cbn [fst snd].
    exists (skipn 2 (gateSteps mctx g username options)).
    split.
    + rewrite Hgate_split at 1. unfold exitSteps. reflexivity.
    + exact Hgate_body.
Qed.

(** X10: the secret store is asked to erase the secret of [u] during a
    logout of [username] exactly when [u] is [username], the caller wants
    the secrets gone, and the run reaches the secret store: the gate is
    passed, the session is cleared, its mode was the OS keychain, a secret
    store is configured and the username is not nil. *)
Theorem ClearSecret_called_iff
    (mctx : Collaborators) (g : GlobalContext.t)
    (username u : NormalizedUsername) (options : LogoutOptions) :
  In (EvClearSecret u)
     (steps (LogoutUsernameWithOptions mctx username options) g) <->
  u = username /\ KeepSecrets options = false /\
  reachesSecretStore mctx g username options = true.
Proof.
  unfold steps, reachesSecretStore.
  destruct (gatePasses mctx g options) eqn:Hgate; cbn [andb].
  - destruct (clearActiveDevice mctx) as [err|] eqn:Hclr; cbn [andb].
    + rewrite (Logout_clear_fails _ _ _ _ _ Hgate Hclr). cbn [snd].
      unfold gateSteps, exitSteps.
      split; [|intros (_ & _ & Hno); discriminate Hno].
      intros Hin. destruct (KeepSecrets options); in_steps Hin.
      apply policySteps_In in Hin. discriminate Hin.
    + rewrite (Logout_teardown _ _ _ _ Hgate Hclr). cbn [snd].
      rewrite afterSecretStorePass_eq.
      change (secretStoreIsNil (clearedSession g)) with (secretStoreIsNil g).
      unfold gateSteps, hookSteps, reloadSteps, resetSteps, pegboardSteps,
        exitSteps, secretStoreSteps.
      destruct (KeychainMode_eqb (storageMode g) KeychainModeOS),
        (secretStoreIsNil g), (IsNil username), (KeepSecrets options),
        (clearSecret mctx username), (configReload mctx),
        (upakLoaderOnLogout mctx);
        cbn [fst snd orb andb negb];
        (split;
         [ intros Hin; in_steps Hin;
           try (apply policySteps_In in Hin; discriminate Hin);
           injection Hin as <-; repeat split
         | intros (-> & Hk & Hreach); try discriminate Hk;
           try discriminate Hreach;
           rewrite !in_app_iff; cbn [In]; find_in ]).
  - rewrite (Logout_denied _ _ _ _ Hgate). cbn [snd].
    unfold gateSteps, exitSteps.
    split; [|intros (_ & _ & Hno); discriminate Hno].
    intros Hin. destruct (KeepSecrets options); in_steps Hin.
    apply policySteps_In in Hin. discriminate Hin.
Qed.

(** X11: the retention set after a logout, in closed form.  A run that
    does not reach the secret store leaves it as it was; one that does
    marks [username] when the secrets are kept, takes [username] out when
    the erase succeeds, and leaves it as it was when the erase fails.  No
    other entry is ever touched. *)
Theorem retention_set_after_logout
    (mctx : Collaborators) (g : GlobalContext.t)
    (username : NormalizedUsername) (options : LogoutOptions) :
  GlobalContext.switchedUsers
    (final (LogoutUsernameWithOptions mctx username options) g) =
  if reachesSecretStore mctx g username options then
    if KeepSecrets options then
      <[username := true]> (GlobalContext.switchedUsers g)
    else
      match clearSecret mctx username with
      | None => delete username (GlobalContext.switchedUsers g)
      | Some _ => GlobalContext.switchedUsers g
      end
  else GlobalContext.switchedUsers g.
Proof.
  unfold final, reachesSecretStore.
  destruct (gatePasses mctx g options) eqn:Hgate; cbn [andb].
  - destruct (clearActiveDevice mctx) as [err|] eqn:Hclr; cbn [andb].
    + rewrite (Logout_clear_fails _ _ _ _ _ Hgate Hclr). reflexivity.
    + rewrite (Logout_teardown _ _ _ _ Hgate Hclr). cbn [fst snd].
      rewrite afterSecretStorePass_eq.
      change (secretStoreIsNil (clearedSession g)) with (secretStoreIsNil g).
      destruct (KeychainMode_eqb (storageMode g) KeychainModeOS),
        (secretStoreIsNil g), (IsNil username), (KeepSecrets options),
        (clearSecret mctx username); reflexivity.
  - rewrite (Logout_denied _ _ _ _ Hgate). reflexivity.
Qed.

(** X12: when a kill-secrets logout reaches the secret store, the erase is
    made with both locks held, after the session has been cleared, the
    sigchain guard reset, the logout hooks called, the per-user keyring
    cleared and the caches flushed; the config reload, the four subsystem
    resets, the verified-key loader and, if that one succeeds, the
    device-trust hook all come after it. *)
Theorem erase_between_flush_and_reload
    (mctx : Collaborators) (g : GlobalContext.t)
    (username : NormalizedUsername) (options : LogoutOptions) :
  reachesSecretStore mctx g username options = true ->
  KeepSecrets options = false ->
  exists before after,
    steps (LogoutUsernameWithOptions mctx username options) g =
    before ++ EvClearSecret username :: after /\
    teardownCalls before =
    [EvAcquire switchUserMu; EvClearGetKeychainMode;
     EvLocalSigchainGuardClear "Logout"; EvCallLogoutHooks;
     EvClearPerUserKeyring; EvFlushCaches; EvAcquire secretStoreMu] /\
    teardownCalls after =
    [EvRelease secretStoreMu; EvConfigReload; EvNotifyRouterHandleLogout;
     EvFeatureFlagsClear; EvIdentifyDispatchOnLogout;
     EvIdentify3StateOnLogout; EvUPAKLoaderOnLogout]
    ++ pegboardSteps mctx ++ [EvRelease switchUserMu].
Proof.
  unfold reachesSecretStore, steps. intros Hreach Hkill.
  destruct (gatePasses mctx g options) eqn:Hgate; [|discriminate].
  destruct (clearActiveDevice mctx) as [err|] eqn:Hclr; [discriminate|].
  destruct (KeychainMode_eqb (storageMode g) KeychainModeOS) eqn:Hmode;
    [|discriminate].
  destruct (secretStoreIsNil g) eqn:Hstore; [discriminate|].
  destruct (IsNil username) eqn:Hname; [discriminate|].
  rewrite (Logout_teardown _ _ _ _ Hgate Hclr). cbn [snd].
  rewrite afterSecretStorePass_eq, Hmode, Hkill.
  change (secretStoreIsNil (clearedSession g)) with (secretStoreIsNil g).
  rewrite Hstore, Hname. cbn [orb].
  exists (gateSteps mctx g username options ++ hookSteps
          ++ [EvAcquire secretStoreMu]).
  exists ((match clearSecret mctx username with
           | Some err => [EvDebug "clear stored secret error: %s" [AError err]]
           | None => []
           end)
          ++ [EvRelease secretStoreMu]
          ++ reloadSteps mctx ++ resetSteps ++ pegboardSteps mctx
          ++ exitSteps (upakLoaderOnLogout mctx)).
  split; [|split].
  - unfold secretStoreSteps.
    destruct (clearSecret mctx username); cbn [fst snd app];
      rewrite <- !app_assoc; reflexivity.
  - rewrite !teardownCalls_app. unfold gateSteps. rewrite Hkill.
    rewrite !teardownCalls_app, teardownCalls_policySteps. reflexivity.
  - rewrite !teardownCalls_app. unfold reloadSteps, pegboardSteps.
    destruct (clearSecret mctx username), (configReload mctx),
      (upakLoaderOnLogout mctx); reflexivity.
Qed.

(** alice logs out for good although her keychain refuses the erase: the
    attempt is made after the cache flush and before the config reload. *)
Lemma erase_between_flush_and_reload_witness :
  exists before after,
    steps (LogoutUsernameWithOptions Samples.hygieneFails "alice" Samples.kill)
      Samples.aliceSession =
    before ++ EvClearSecret "alice" :: after /\
    In EvFlushCaches before /\ In EvConfigReload after.
Proof.
  destruct (erase_between_flush_and_reload Samples.hygieneFails
              Samples.aliceSession "alice" Samples.kill eq_refl eq_refl)
    as (before & after & Hsteps & Hbefore & Hafter).
  exists before, after. split; [exact Hsteps|].
  split.
  - assert (Hin : In EvFlushCaches (teardownCalls before))
      by (rewrite Hbefore; cbn; tauto).
    unfold teardownCalls in Hin. apply List.filter_In in Hin. tauto.
  - assert (Hin : In EvConfigReload (teardownCalls after))
      by (rewrite Hafter; cbn; tauto).
    unfold teardownCalls in Hin. apply List.filter_In in Hin. tauto.
Defined.

(** * The earlier revision *)

(** ** Paths through [LogoutUsernameWithSecretKill] *)

Lemma legacy_clear_fails (m : Collaborators) (g : GlobalContext.t)
    (username : NormalizedUsername) (killSecrets : bool) (err : error) :
  clearActiveDevice m = Some err ->
  run (legacy.LogoutUsernameWithSecretKill m username killSecrets) g =
  (Some err, g,
   [EvAcquire switchUserMu;
    EvDebug "GlobalContext#logoutWithSecretKill: after switchUserMu acquisition (username: %s, secretKill: %v)"
            [AString username; ABool killSecrets];
    EvClearGetKeychainMode; EvRelease switchUserMu]).
Proof.
  intros Hclr. open_collaborators m. open_session g. cbn in Hclr. subst clr.
  coord_unfold. reflexivity.
Qed.

Lemma legacy_teardown (m : Collaborators) (g : GlobalContext.t)
    (username : NormalizedUsername) (killSecrets : bool) :
  clearActiveDevice m = None ->
  run (legacy.LogoutUsernameWithSecretKill m username killSecrets) g =
  (upakLoaderOnLogout m,
   (afterSecretStorePass m username (negb killSecrets) (storageMode g)
      (clearedSession g)).1,
   [EvAcquire switchUserMu;
    EvDebug "GlobalContext#logoutWithSecretKill: after switchUserMu acquisition (username: %s, secretKill: %v)"
            [AString username; ABool killSecrets];
    EvClearGetKeychainMode; EvLocalSigchainGuardClear "Logout";
    EvDebug "+ GlobalContext#logoutWithSecretKill: calling logout hooks" [];
    EvCallLogoutHooks;
    EvDebug "- GlobalContext#logoutWithSecretKill: called logout hooks" [];
    EvClearPerUserKeyring; EvFlushCaches]
   ++ (afterSecretStorePass m username (negb killSecrets) (storageMode g)
         (clearedSession g)).2
   ++ reloadSteps m ++ resetSteps ++ pegboardSteps m
   ++ [EvRelease switchUserMu]).
Proof.
  intros Hclr. open_collaborators m. open_session g. cbn in Hclr. subst clr.
  coord_cases; steps_norm; reflexivity.
Qed.

(** The entry points of the earlier revision. *)
Lemma legacy_LogoutCurrentUser_run (m : Collaborators) (killSecrets : bool)
    (g : GlobalContext.t) :
  run (legacy.LogoutCurrentUserWithSecretKill m killSecrets) g =
  run (legacy.LogoutUsernameWithSecretKill m (activeUsername g) killSecrets) g.
Proof.
  unfold legacy.LogoutCurrentUserWithSecretKill, activeUsername.
  cbv [run func bind getG return_].
  destruct (legacy.LogoutUsernameWithSecretKill m _ killSecrets g)
    as [[[r|r] g'] t]; rewrite ?app_nil_r; reflexivity.
Qed.

Lemma legacy_Logout_run (m : Collaborators) (g : GlobalContext.t) :
  run (legacy.Logout m) g =
  ((run (legacy.LogoutUsernameWithSecretKill m (activeUsername g) true) g).1.1,
   (run (legacy.LogoutUsernameWithSecretKill m (activeUsername g) true) g).1.2,
   EvTraceEnter "GlobalContext#Logout" []
   :: (run (legacy.LogoutUsernameWithSecretKill m (activeUsername g) true) g).2
   ++ [EvTraceExit
         (run (legacy.LogoutUsernameWithSecretKill m (activeUsername g) true)
            g).1.1]).
Proof.
  rewrite <- legacy_LogoutCurrentUser_run.
  unfold legacy.Logout. cbv [run func bind return_ emit deferring].
  destruct (legacy.LogoutCurrentUserWithSecretKill m true g)
    as [[[r|r] g'] t]; cbn; rewrite ?app_nil_r; reflexivity.
Qed.

Lemma legacy_ClearStateForSwitchUsers_run (m : Collaborators)
    (g : GlobalContext.t) :
  run (legacy.ClearStateForSwitchUsers m) g =
  run (legacy.LogoutUsernameWithSecretKill m (activeUsername g) false) g.
Proof.
  rewrite <- legacy_LogoutCurrentUser_run.
  unfold legacy.ClearStateForSwitchUsers. cbv [run func bind return_].
  destruct (legacy.LogoutCurrentUserWithSecretKill m false g)
    as [[[r|r] g'] t]; rewrite ?app_nil_r; reflexivity.
Qed.

Lemma LogoutKeepSecrets_run (mctx : Collaborators) (g : GlobalContext.t) :
  run (LogoutKeepSecrets mctx) g =
  run (LogoutUsernameWithOptions mctx (activeUsername g)
         {| KeepSecrets := true; Force := false |}) g.
Proof.
  rewrite <- LogoutWithOptions_run.
  unfold LogoutKeepSecrets. cbv [run func bind return_].
  destruct (LogoutWithOptions mctx _ g) as [[[r|r] g'] t];
    rewrite ?app_nil_r; reflexivity.
Qed.

(** ** The two revisions side by side *)

Lemma teardownCalls_gateSteps (mctx : Collaborators) (g : GlobalContext.t)
    (username : NormalizedUsername) (options : LogoutOptions) :
  teardownCalls (gateSteps mctx g username options) = [EvAcquire switchUserMu].
Proof.
  unfold gateSteps. rewrite teardownCalls_app.
  destruct (KeepSecrets options);
    rewrite ?teardownCalls_app, ?teardownCalls_policySteps; reflexivity.
Qed.

Lemma teardownCalls_afterSecretStorePass (mctx : Collaborators)
    (username : NormalizedUsername) (keep : bool) (km : KeychainMode)
    (g : GlobalContext.t) :
  teardownCalls (afterSecretStorePass mctx username keep km g).2 =
  calls (afterSecretStorePass mctx username keep km g).2.
Proof.
  rewrite afterSecretStorePass_eq.
  destruct (KeychainMode_eqb km KeychainModeOS),
    (secretStoreIsNil g || IsNil username), keep,
    (clearSecret mctx username); reflexivity.
Qed.

(** Once the gate of the current revision has let the run through, the
    two revisions return the same, end in the same global context and,
    the queries of the policy apart, make the same calls in the same
    order. *)
Lemma legacy_agreement (m : Collaborators) (g : GlobalContext.t)
    (username : NormalizedUsername) (killSecrets f : bool) :
  gatePasses m g {| KeepSecrets := negb killSecrets; Force := f |} = true ->
  run (LogoutUsernameWithOptions m username
         {| KeepSecrets := negb killSecrets; Force := f |}) g =
  ((run (legacy.LogoutUsernameWithSecretKill m username killSecrets) g).1,
   (run (LogoutUsernameWithOptions m username
           {| KeepSecrets := negb killSecrets; Force := f |}) g).2) /\
  teardownCalls
    (run (LogoutUsernameWithOptions m username
            {| KeepSecrets := negb killSecrets; Force := f |}) g).2 =
  calls (run (legacy.LogoutUsernameWithSecretKill m username killSecrets) g).2.
Proof.
  intros Hgate.
  destruct (clearActiveDevice m) as [err|] eqn:Hclr.
  - rewrite (Logout_clear_fails _ _ _ _ _ Hgate Hclr),
      (legacy_clear_fails _ _ _ _ _ Hclr).
    cbn [fst snd]. split; [reflexivity|].
    rewrite !teardownCalls_app, teardownCalls_gateSteps. reflexivity.
  - rewrite (Logout_teardown _ _ _ _ Hgate Hclr), (legacy_teardown _ _ _ _ Hclr).
    cbn [fst snd KeepSecrets]. split; [reflexivity|].
    rewrite !teardownCalls_app, teardownCalls_gateSteps,
      teardownCalls_afterSecretStorePass.
    unfold calls, teardownCalls. rewrite !List.filter_app.
    generalize (List.filter (fun e => negb (isLogLine e))
                  (afterSecretStorePass m username (negb killSecrets)
                     (storageMode g) (clearedSession g)).2).
    intros pass. unfold reloadSteps, pegboardSteps.
    destruct (configReload m), (upakLoaderOnLogout m); reflexivity.
Qed.

(** With the secrets kept no query of the policy is made either. *)
Lemma keep_secrets_policy_free (m : Collaborators) (g : GlobalContext.t)
    (username : NormalizedUsername) (f : bool) :
  teardownCalls
    (run (LogoutUsernameWithOptions m username
            {| KeepSecrets := true; Force := f |}) g).2 =
  calls
    (run (LogoutUsernameWithOptions m username
            {| KeepSecrets := true; Force := f |}) g).2.
Proof.
  destruct (clearActiveDevice m) as [err|] eqn:Hclr.
  - rewrite (Logout_clear_fails m g username
               {| KeepSecrets := true; Force := f |} err eq_refl Hclr).
    reflexivity.
  - rewrite (Logout_teardown m g username
               {| KeepSecrets := true; Force := f |} eq_refl Hclr).
    cbn [fst snd KeepSecrets].
    pose proof (teardownCalls_afterSecretStorePass m username true
                  (storageMode g) (clearedSession g)) as Hpass.
    unfold calls, teardownCalls in *. rewrite !List.filter_app, Hpass.
    unfold reloadSteps, pegboardSteps.
    destruct (configReload m), (upakLoaderOnLogout m); reflexivity.
Qed.

(** X13: where the policy permits the logout, [LogoutKillSecrets] does
    what [Logout] of the earlier revision did: the same result, the same
    final global context and, the two queries of the policy apart, the
    same calls in the same order. *)
Theorem LogoutKillSecrets_refines_legacy_Logout
    (m : Collaborators) (g : GlobalContext.t) :
  permits m g = true ->
  result (LogoutKillSecrets m) g = result (legacy.Logout m) g /\
  final (LogoutKillSecrets m) g = final (legacy.Logout m) g /\
  teardownCalls (steps (LogoutKillSecrets m) g) =
  calls (steps (legacy.Logout m) g).
Proof.
  intros Hpermits. unfold result, final, steps.
  rewrite LogoutKillSecrets_run, legacy_Logout_run.
  destruct (legacy_agreement m g (activeUsername g) true false)
    as [Hrun Hcalls].
  { unfold gatePasses. cbn [KeepSecrets negb orb]. exact Hpermits. }
  cbn [negb] in Hrun, Hcalls. rewrite Hcalls. rewrite Hrun.
  cbn [fst snd]. repeat split.
  unfold calls. cbn [List.filter isLogLine negb].
  rewrite List.filter_app. cbn [List.filter isLogLine negb].
  rewrite app_nil_r. reflexivity.
Qed.

(** alice, whose password is her own, logs out for good: with either
    revision her secret is gone. *)
Lemma LogoutKillSecrets_refines_legacy_Logout_witness :
  final (LogoutKillSecrets Samples.healthy) Samples.aliceSession =
  final (legacy.Logout Samples.healthy) Samples.aliceSession.
Proof.
  destruct (LogoutKillSecrets_refines_legacy_Logout Samples.healthy
              Samples.aliceSession eq_refl) as (_ & Hfinal & _).
  exact Hfinal.
Defined.

(** X14: [LogoutKeepSecrets] does what [ClearStateForSwitchUsers] of the
    earlier revision did, whatever the policy would say: the same result,
    the same final global context and the same calls in the same order. *)
Theorem LogoutKeepSecrets_is_ClearStateForSwitchUsers
    (m : Collaborators) (g : GlobalContext.t) :
  result (LogoutKeepSecrets m) g = result (legacy.ClearStateForSwitchUsers m) g /\
  final (LogoutKeepSecrets m) g = final (legacy.ClearStateForSwitchUsers m) g /\
  calls (steps (LogoutKeepSecrets m) g) =
  calls (steps (legacy.ClearStateForSwitchUsers m) g).
Proof.
  unfold result, final, steps.
  rewrite LogoutKeepSecrets_run, legacy_ClearStateForSwitchUsers_run.
  destruct (legacy_agreement m g (activeUsername g) false false eq_refl)
    as [Hrun Hcalls].
  cbn [negb] in Hrun, Hcalls.
  rewrite <- Hcalls, keep_secrets_policy_free. rewrite Hrun at 1 2.
  cbn [fst snd]. repeat split.
Qed.

(** X15: the earlier revision has no gate.  Its [Logout] never makes a
    step of the policy, and its result is the error of the clearing of
    the session or else the answer of the verified-key loader, also where
    the policy of the current revision would deny. *)
Theorem legacy_Logout_is_not_gated (m : Collaborators) (g : GlobalContext.t) :
  result (legacy.Logout m) g =
    match clearActiveDevice m with
    | Some err => Some err
    | None => upakLoaderOnLogout m
    end /\
  Forall (fun e => isPolicyStep e = false) (steps (legacy.Logout m) g) /\
  In EvClearGetKeychainMode (steps (legacy.Logout m) g).
Proof.
  unfold result, steps. rewrite legacy_Logout_run.
  destruct (clearActiveDevice m) as [err|] eqn:Hclr.
  - rewrite (legacy_clear_fails _ _ _ _ _ Hclr). cbn [fst snd].
    repeat split; [forall_steps|cbn; tauto].
  - rewrite (legacy_teardown _ _ _ _ Hclr). cbn [fst snd].
    destruct (afterSecretStorePass_steps m (activeUsername g) (negb true)
                (storageMode g) (clearedSession g)) as (Hpass & _).
    repeat split; [|cbn; tauto].
    unfold reloadSteps, resetSteps, pegboardSteps.
    destruct (configReload m), (upakLoaderOnLogout m); cbn [app];
      forall_steps; try exact Hpass; forall_steps.
Qed.

(** ** The self-check of the earlier revision *)

Lemma legacy_LogoutSelfCheck_run (m : Collaborators) (g : GlobalContext.t)
    (res : APIRes) (logout : bool) :
  IsNil (ActiveDevice.UID (GlobalContext.ActiveDevice g)) = false ->
  IsNil (ActiveDevice.DeviceID (GlobalContext.ActiveDevice g)) = false ->
  apiPost m = inr res ->
  verdict m res = inr logout ->
  run (legacy.LogoutSelfCheck m) g =
  if logout then
    ((run (legacy.Logout m) g).1.1,
     (run (legacy.Logout m) g).1.2,
     selfCheckSteps g true
     ++ [EvDebug "LogoutSelfCheck: logging out..." []]
     ++ (run (legacy.Logout m) g).2)
  else (None, g, selfCheckSteps g false).
Proof.
  unfold verdict, selfCheckSteps. intros Huid Hdid Hpost Hverdict.
  unfold legacy.LogoutSelfCheck.
  cbv [run func bind getG return_ when Debug emit ret APIPost].
  rewrite Huid, Hdid, Hpost, Hverdict.
  destruct logout.
  - destruct (legacy.Logout m g) as [[[r|r] g'] t]; cbn;
      rewrite ?app_nil_r; reflexivity.
  - reflexivity.
Qed.

Ltac self_check_unfold :=
  unfold result, final, steps, LogoutSelfCheck, legacy.LogoutSelfCheck,
    verdict in *;
  cbv [run func bind getG return_ when Debug emit ret APIPost].

(** X16: where the policy permits the logout, the self-check does what the
    self-check of the earlier revision did, whatever the server answers:
    the same result, the same final global context and, the queries of
    the policy apart, the same calls in the same order. *)
Theorem LogoutSelfCheck_refines_legacy
    (m : Collaborators) (g : GlobalContext.t) :
  permits m g = true ->
  result (LogoutSelfCheck m) g = result (legacy.LogoutSelfCheck m) g /\
  final (LogoutSelfCheck m) g = final (legacy.LogoutSelfCheck m) g /\
  teardownCalls (steps (LogoutSelfCheck m) g) =
  calls (steps (legacy.LogoutSelfCheck m) g).
Proof.
  intros Hpermits.
  destruct (IsNil (ActiveDevice.UID (GlobalContext.ActiveDevice g))) eqn:Huid;
    [self_check_unfold; rewrite Huid; repeat split|].
  destruct (IsNil (ActiveDevice.DeviceID (GlobalContext.ActiveDevice g)))
    eqn:Hdid; [self_check_unfold; rewrite Huid, Hdid; repeat split|].
  destruct (apiPost m) as [err|res] eqn:Hpost;
    [self_check_unfold; rewrite Huid, Hdid, Hpost; repeat split|].
  destruct (verdict m res) as [err|logout] eqn:Hverdict.
  - self_check_unfold. rewrite Huid, Hdid, Hpost, Hverdict. repeat split.
  - unfold result, final, steps.
    rewrite (LogoutSelfCheck_run _ _ _ _ Huid Hdid Hpost Hverdict),
      (legacy_LogoutSelfCheck_run _ _ _ _ Huid Hdid Hpost Hverdict).
    destruct logout; [|repeat split].
    rewrite LogoutKillSecrets_run, legacy_Logout_run.
    destruct (legacy_agreement m g (activeUsername g) true false)
      as [Hrun Hcalls].
    { unfold gatePasses. cbn [KeepSecrets negb orb]. exact Hpermits. }
    cbn [negb] in Hrun, Hcalls. cbn [fst snd].
    rewrite !teardownCalls_app, Hcalls. rewrite Hrun.
    cbn [fst snd]. repeat split.
    unfold calls. rewrite !List.filter_app.
    cbn [List.filter isLogLine negb].
    rewrite List.filter_app. cbn [List.filter isLogLine negb].
    rewrite app_nil_r. reflexivity.
Qed.

(** The server tells alice's client to log out: either revision of the
    self-check leaves the same global context behind. *)
Lemma LogoutSelfCheck_refines_legacy_witness :
  final (LogoutSelfCheck Samples.healthy) Samples.aliceSession =
  final (legacy.LogoutSelfCheck Samples.healthy) Samples.aliceSession.
Proof.
  destruct (LogoutSelfCheck_refines_legacy Samples.healthy
              Samples.aliceSession eq_refl) as (_ & Hfinal & _).
  exact Hfinal.
Defined.
